(** * ScenarioManager: the tick orchestrator and its reporter

    A shallow embedding of [leaderboard/scenarios/scenario_manager.py].

    The manager drives four collaborators that live outside this repository
    (the watchdog, the CARLA world and data provider, the agent wrapper and
    the py_trees behaviour tree).  Their answers are supplied by an
    environment [Env]; every call made to them is appended to a log, so that
    what the manager does, and in which order, can be read off the log.
    Python floats are IEEE 754 binary64 numbers and are modelled by Rocq's
    primitive floats; Python ints are modelled by [Z]. *)

From Stdlib Require Import ZArith Bool List String Ascii Lia.
From Stdlib Require Import Floats Uint63.
Import ListNotations.

Local Open Scope string_scope.
Local Open Scope list_scope.
Local Open Scope Z_scope.

(** ** Values *)

(** [py_trees.common.Status] *)
Inductive Status := RUNNING | SUCCESS | FAILURE | INVALID.

Definition Status_eqb (a b : Status) : bool :=
  match a, b with
  | RUNNING, RUNNING | SUCCESS, SUCCESS
  | FAILURE, FAILURE | INVALID, INVALID => true
  | _, _ => false
  end.

(** [carla.Timestamp]; only [elapsed_seconds] is read by the manager. *)
Record Timestamp := mkTimestamp { elapsed_seconds : float }.

(** A Python number: an [int] or a [float]. *)
Inductive pynum := PInt (z : Z) | PFloat (f : float).

(** [float(z)] for an int literal of the source (exact below 2^53). *)
Definition float_of_Z (z : Z) : float :=
  match z with
  | Z0 => PrimFloat.zero
  | Zpos _ => PrimFloat.of_uint63 (Uint63.of_Z z)
  | Zneg p => PrimFloat.opp (PrimFloat.of_uint63 (Uint63.of_Z (Zpos p)))
  end.

(** [m * v] where [m] is an int. *)
Definition py_mul (m : Z) (v : pynum) : pynum :=
  match v with
  | PInt z => PInt (m * z)
  | PFloat f => PFloat (PrimFloat.mul (float_of_Z m) f)
  end.

(** [v >= d], [v == d] and [v < d] where [d] is an int. *)
Definition py_ge (v : pynum) (d : Z) : bool :=
  match v with
  | PInt z => d <=? z
  | PFloat f => PrimFloat.leb (float_of_Z d) f
  end.

Definition py_eq (v : pynum) (d : Z) : bool :=
  match v with
  | PInt z => z =? d
  | PFloat f => PrimFloat.eqb f (float_of_Z d)
  end.

Definition py_lt (v : pynum) (d : Z) : bool :=
  match v with
  | PInt z => z <? d
  | PFloat f => PrimFloat.ltb f (float_of_Z d)
  end.

(** ** Console output

    A printed line is kept as the pieces [str.format] puts together, so that
    numbers need not be rendered as text. *)
Inductive frag := FStr (s : string) | FNum (n : pynum).
Definition line := list frag.

Definition ESC : string := String (ascii_of_nat 27) EmptyString.
Definition NL : string := String (ascii_of_nat 10) EmptyString.

Definition tick : string := ESC ++ "[92m" ++ "O" ++ ESC ++ "[0m".
Definition cross : string := ESC ++ "[91m" ++ "X" ++ ESC ++ "[0m".

(** What [_console_message] prints when the tree is still running. *)
Definition inconclusive_notice : line :=
  [FStr (NL ++ "> Something happened during the simulation. Was it manually shutdown?" ++ NL)].

(** The nested helper of [_console_message]. *)
Definition get_symbol (value : pynum) (desired_value : Z) (high : bool) : string :=
  let multiplier := if high then 1 else -1 in
  if py_ge (py_mul multiplier value) desired_value then tick else cross.

(** ** The metrics blackboard *)

(** Modelled from the spec: the value types of the six blackboard entries
    read by [_console_message] (the criteria that write them are not part
    of this module).  [None] is what [Blackboard.get] returns for an entry
    that was never written. *)
Record Blackboard := mkBlackboard {
  RouteCompletion : option float;
  Collision : option Z;
  OutsideRouteLanes : option float;
  RunningStop : option Z;
  RunningRedLight : option Z;
  InRoute : option bool
}.

(** ** Exceptions *)
Inductive exn :=
| RuntimeError (msg : string)
| TypeError
| IndexError
| UnboundLocalError
| CollaboratorError.

Inductive result (A : Type) := Ok (a : A) | Raise (e : exn).
Arguments Ok {A} a.
Arguments Raise {A} e.

Section Manager.

Context {Actor Agent Control : Type}.

(** ** Calls to the collaborators *)
Inductive event :=
| EWatchdogStart
| EWatchdogStop
| EWatchdogUpdate
| EWatchdogGetStatus
| ETimeTime
| EGameTimeGetTime
| EGameTimeOnCarlaTick (timestamp : Timestamp)
| EProviderOnCarlaTick
| EAgentCall
| ETreeTickOnce
| EPrintAsciiTree
| EStdoutFlush
| EGetSpectator
| EGetTransform (ego : Actor)
| ESetTransform
| EApplyControl (ego : Actor) (ego_action : Control)
| EWorldTick.

(** What the collaborators answer, as a function of the calls made so far
    (the last element of the list is the call being answered). *)
Record Env := mkEnv {
  env_raises : list event -> bool;
  env_alive : list event -> bool;
  env_action : list event -> Control;
  env_tree : list event -> Status;
  env_blackboard : list event -> Blackboard;
  env_time : list event -> float
}.

(** ** State *)
Record ScenarioManager := mkManager {
  scenario_tree_name : string;
  ego_vehicles : list Actor;
  _debug_mode : Z;
  _challenge_mode : bool;
  _agent : option Agent;
  _running : bool;
  _timestamp_last_run : float;
  scenario_duration_system : float;
  scenario_duration_game : float;
  start_system_time : option float;
  end_system_time : option float
}.

Record State := mkState {
  self : ScenarioManager;
  tree_status : Status;
  blackv : Blackboard;
  log : list event;
  stdout : list line
}.

Definition with_self (f : ScenarioManager -> ScenarioManager) (s : State) : State :=
  mkState (f (self s)) (tree_status s) (blackv s) (log s) (stdout s).

Definition set_running (b : bool) (m : ScenarioManager) : ScenarioManager :=
  mkManager (scenario_tree_name m) (ego_vehicles m) (_debug_mode m)
    (_challenge_mode m) (_agent m) b (_timestamp_last_run m)
    (scenario_duration_system m) (scenario_duration_game m)
    (start_system_time m) (end_system_time m).

Definition set_timestamp_last_run (t : float) (m : ScenarioManager) : ScenarioManager :=
  mkManager (scenario_tree_name m) (ego_vehicles m) (_debug_mode m)
    (_challenge_mode m) (_agent m) (_running m) t
    (scenario_duration_system m) (scenario_duration_game m)
    (start_system_time m) (end_system_time m).

Definition set_start_system_time (t : float) (m : ScenarioManager) : ScenarioManager :=
  mkManager (scenario_tree_name m) (ego_vehicles m) (_debug_mode m)
    (_challenge_mode m) (_agent m) (_running m) (_timestamp_last_run m)
    (scenario_duration_system m) (scenario_duration_game m)
    (Some t) (end_system_time m).

Definition set_end (t_end dur_system dur_game : float) (m : ScenarioManager)
  : ScenarioManager :=
  mkManager (scenario_tree_name m) (ego_vehicles m) (_debug_mode m)
    (_challenge_mode m) (_agent m) (_running m) (_timestamp_last_run m)
    dur_system dur_game (start_system_time m) (Some t_end).

(** ** The monad: state that survives an exception *)
Definition M (A : Type) : Type := State -> result A * State.

Definition ret {A} (a : A) : M A := fun s => (Ok a, s).

Definition bind {A B} (c : M A) (k : A -> M B) : M B :=
  fun s =>
    match c s with
    | (Ok a, s') => k a s'
    | (Raise e, s') => (Raise e, s')
    end.

Definition raise {A} (e : exn) : M A := fun s => (Raise e, s).
Definition gets {A} (f : State -> A) : M A := fun s => (Ok (f s), s).
Definition modify (f : State -> State) : M unit := fun s => (Ok tt, f s).
Definition when (b : bool) (c : M unit) : M unit := if b then c else ret tt.

Notation "x <- c ;; k" := (bind c (fun x => k))
  (at level 61, c at next level, right associativity).
Notation "c ;; k" := (bind c (fun _ => k))
  (at level 61, right associativity).

Variable env : Env.

Definition record (e : event) (s : State) : State :=
  mkState (self s) (tree_status s) (blackv s) (log s ++ [e]) (stdout s).

(** A call to a collaborator: it is logged, and it may raise. *)
Definition call (e : event) : M unit :=
  fun s =>
    let s' := record e s in
    if env_raises env (log s') then (Raise CollaboratorError, s') else (Ok tt, s').

(** [print(...)] *)
Definition print (l : line) : M unit :=
  modify (fun s => mkState (self s) (tree_status s) (blackv s) (log s) (stdout s ++ [l])).

(** [self._watchdog.get_status()]: a read of the flag the watchdog thread owns. *)
Definition watchdog_get_status : M bool :=
  fun s =>
    let s' := record EWatchdogGetStatus s in
    (Ok (env_alive env (log s')), s').

(** [self._agent()] *)
Definition agent_call : M Control :=
  call EAgentCall ;;
  l <- gets log ;;
  ret (env_action env l).

(** [self.scenario_tree.tick_once()]: the tree sets its status and the
    criteria write the blackboard. *)
Definition tree_tick_once : M unit :=
  call ETreeTickOnce ;;
  modify (fun s => mkState (self s) (env_tree env (log s))
                     (env_blackboard env (log s)) (log s) (stdout s)).

(** [time.time()] and [GameTime.get_time()] *)
Definition read_clock (e : event) : M float :=
  call e ;;
  l <- gets log ;;
  ret (env_time env l).

(** [self.ego_vehicles[0]] *)
Definition ego_vehicle0 : M Actor :=
  vs <- gets (fun s => ego_vehicles (self s)) ;;
  match vs with
  | v :: _ => ret v
  | [] => raise IndexError
  end.

(** ** The manager's methods *)

(** [get_running_status] *)
Definition get_running_status : M bool :=
  watchdog_get_status.

(** [_signal_handler]; [signum] and [frame] are not used by the source. *)
Definition _signal_handler : M unit :=
  modify (with_self (set_running false)) ;;
  alive <- get_running_status ;;
  if negb alive then
    raise (RuntimeError "Timeout occured during scenario execution")
  else ret tt.

(** [_console_message].  [None >= 99] is a [TypeError] (under Python 2 it
    is [False], and the [TypeError] comes from [1 * None] in [get_symbol];
    nothing is printed before either). *)
Definition _console_message : M unit :=
  status <- gets tree_status ;;
  if Status_eqb status RUNNING then
    print inconclusive_notice
  else
    b <- gets blackv ;;
    match Collision b, OutsideRouteLanes b, RunningStop b,
          RunningRedLight b, InRoute b with
    | Some collisions, Some outside_route_lanes, Some stop_signs,
      Some red_light, Some in_route =>
        match RouteCompletion b with
        | None => raise TypeError
        | Some rc =>
            let route_completed :=
              if py_ge (PFloat rc) 99 then PInt 100 else PFloat rc in
            let outside_route_lanes := PFloat outside_route_lanes in
            let route_symbol := get_symbol route_completed 100 true in
            let collision_symbol := get_symbol (PInt collisions) 0 false in
            let outside_symbol := get_symbol outside_route_lanes 0 false in
            let red_light_symbol := get_symbol (PInt red_light) 0 false in
            let stop_symbol := get_symbol (PInt stop_signs) 0 false in
            let report (message : string) : M unit :=
              when (negb (Status_eqb status RUNNING))
                (print [FStr (NL ++ message)] ;;
                 print [FStr "> "] ;;
                 print [FStr "> Score: "] ;;
                 print [FStr "> - Route Completed ["; FStr route_symbol;
                        FStr "]:      "; FNum route_completed; FStr "%"] ;;
                 print [FStr "> - Outside route lanes ["; FStr outside_symbol;
                        FStr "]:  "; FNum outside_route_lanes; FStr "%"] ;;
                 print [FStr "> - Collisions ["; FStr collision_symbol;
                        FStr "]:           "; FNum (PInt collisions); FStr " times"] ;;
                 print [FStr "> - Red lights run ["; FStr red_light_symbol;
                        FStr "]:       "; FNum (PInt red_light); FStr " times"] ;;
                 print [FStr "> - Stop signs run ["; FStr stop_symbol;
                        FStr "]:       "; FNum (PInt stop_signs); FStr (" times" ++ NL)]) in
            match status with
            | FAILURE =>
                if negb in_route then
                  report "> FAILED: The actor deviated from the route"
                else
                  report "> FAILED: The actor didn't finish the route"
            | SUCCESS =>
                if py_eq route_completed 100 then
                  report "> SUCCESS: Congratulations, route finished! "
                else
                  report "> FAILED: The actor timed out "
            | _ => ret tt
            end
        end
    | _, _, _, _, _ => ret tt
    end.

(** [_tick_scenario] *)
Definition _tick_scenario (timestamp : Timestamp) : M unit :=
  last_run <- gets (fun s => _timestamp_last_run (self s)) ;;
  when (PrimFloat.ltb last_run (elapsed_seconds timestamp))
    (modify (with_self (set_timestamp_last_run (elapsed_seconds timestamp))) ;;
     call EWatchdogUpdate ;;
     call (EGameTimeOnCarlaTick timestamp) ;;
     call EProviderOnCarlaTick ;;
     agent <- gets (fun s => _agent (self s)) ;;
     ego_action <- match agent with
                   | Some _ => c <- agent_call ;; ret (Some c)
                   | None => ret None
                   end ;;
     tree_tick_once ;;
     debug_mode <- gets (fun s => _debug_mode (self s)) ;;
     when (1 <? debug_mode)
       (print [FStr NL] ;;
        call EPrintAsciiTree ;;
        call EStdoutFlush) ;;
     status <- gets tree_status ;;
     when (negb (Status_eqb status RUNNING))
       (modify (with_self (set_running false))) ;;
     challenge_mode <- gets (fun s => _challenge_mode (self s)) ;;
     when challenge_mode
       (call EGetSpectator ;;
        ego <- ego_vehicle0 ;;
        call (EGetTransform ego) ;;
        call ESetTransform) ;;
     agent <- gets (fun s => _agent (self s)) ;;
     match agent with
     | Some _ =>
         ego <- ego_vehicle0 ;;
         match ego_action with
         | Some c => call (EApplyControl ego c)
         | None => raise UnboundLocalError
         end
     | None => ret tt
     end) ;;
  agent <- gets (fun s => _agent (self s)) ;;
  match agent with
  | Some _ =>
      running <- gets (fun s => _running (self s)) ;;
      if running then
        alive <- watchdog_get_status ;;
        when alive (call EWorldTick)
      else ret tt
  | None => ret tt
  end.

(** The [while self._running] loop of [run_scenario].  Each element of
    [polls] is what one iteration reads from the world: a timestamp, or
    [None] when there is no world or no snapshot yet.  The result tells
    whether the loop was left ([true]) or is still going when [polls] ends. *)
Fixpoint run_loop (polls : list (option Timestamp)) : M bool :=
  running <- gets (fun s => _running (self s)) ;;
  if running then
    match polls with
    | [] => ret false
    | timestamp :: polls' =>
        match timestamp with
        | Some ts => _tick_scenario ts
        | None => ret tt
        end ;;
        run_loop polls'
    end
  else ret true.

(** [run_scenario], up to the end of [polls]. *)
Definition run_scenario (polls : list (option Timestamp)) : M bool :=
  name <- gets (fun s => scenario_tree_name (self s)) ;;
  print [FStr "ScenarioManager: Running scenario "; FStr name] ;;
  start_system_time <- read_clock ETimeTime ;;
  modify (with_self (set_start_system_time start_system_time)) ;;
  start_game_time <- read_clock EGameTimeGetTime ;;
  call EWatchdogStart ;;
  modify (with_self (set_running true)) ;;
  left <- run_loop polls ;;
  if left then
    call EWatchdogStop ;;
    end_system_time <- read_clock ETimeTime ;;
    end_game_time <- read_clock EGameTimeGetTime ;;
    modify (with_self (set_end end_system_time
                         (PrimFloat.sub end_system_time start_system_time)
                         (PrimFloat.sub end_game_time start_game_time))) ;;
    _console_message ;;
    ret true
  else ret false.

End Manager.

(** ** Reading a run *)

Section Observations.

Context {Actor Agent Control : Type}.

(** The calls made, and the lines printed, between two states of a run. *)
Definition new_events (s s' : @State Actor Agent Control) : list (@event Actor Control) :=
  skipn (List.length (log s)) (log s').

Definition new_lines (s s' : @State Actor Agent Control) : list line :=
  skipn (List.length (stdout s)) (stdout s').

(** The calls that belong to the per-cycle block of [_tick_scenario]. *)
Definition is_cycle_event (e : @event Actor Control) : bool :=
  match e with
  | EWatchdogUpdate | EGameTimeOnCarlaTick _ | EProviderOnCarlaTick
  | EAgentCall | ETreeTickOnce | EPrintAsciiTree | EStdoutFlush
  | EGetSpectator | EGetTransform _ | ESetTransform
  | EApplyControl _ _ => true
  | _ => false
  end.

(** [CarlaDataProvider.get_world().tick()]: the advance of the external clock. *)
Definition is_world_tick (e : @event Actor Control) : bool :=
  match e with EWorldTick => true | _ => false end.

(** The spectator update of [_tick_scenario]. *)
Definition is_spectator_update (e : @event Actor Control) : bool :=
  match e with
  | EGetSpectator | EGetTransform _ | ESetTransform => true
  | _ => false
  end.

Definition is_tree_tick (e : @event Actor Control) : bool :=
  match e with ETreeTickOnce => true | _ => false end.

Definition is_apply_control (e : @event Actor Control) : bool :=
  match e with EApplyControl _ _ => true | _ => false end.

Definition count (p : @event Actor Control -> bool) (evs : list (@event Actor Control)) : nat :=
  List.length (filter p evs).

(** The elapsed seconds the game clock was moved to, in order: one entry per
    cycle that got as far as [GameTime.on_carla_tick]. *)
Fixpoint processed (evs : list (@event Actor Control)) : list float :=
  match evs with
  | [] => []
  | EGameTimeOnCarlaTick ts :: evs' => elapsed_seconds ts :: processed evs'
  | _ :: evs' => processed evs'
  end.

(** [x < l1 < l2 < ...] *)
Fixpoint increasing_from (x : float) (l : list float) : Prop :=
  match l with
  | [] => True
  | y :: l' => PrimFloat.ltb x y = true /\ increasing_from y l'
  end.

Definition set_blackv (b : Blackboard) (s : @State Actor Agent Control)
  : @State Actor Agent Control :=
  mkState (self s) (tree_status s) b (log s) (stdout s).

(** The position of a call in the order of [_tick_scenario]'s body. *)
Definition phase (e : @event Actor Control) : nat :=
  match e with
  | EWatchdogUpdate => 1
  | EGameTimeOnCarlaTick _ => 2
  | EProviderOnCarlaTick => 3
  | EAgentCall => 4
  | ETreeTickOnce => 5
  | EPrintAsciiTree => 6
  | EStdoutFlush => 7
  | EGetSpectator => 8
  | EGetTransform _ => 9
  | ESetTransform => 10
  | EApplyControl _ _ => 11
  | EWatchdogGetStatus => 12
  | EWorldTick => 13
  | _ => 0
  end.

Fixpoint ascending (n : nat) (l : list nat) : bool :=
  match l with
  | [] => true
  | m :: l' => (n <? m)%nat && ascending m l'
  end.

(** The calls of one full cycle, in the order the source makes them. *)
Definition cycle_events (m : @ScenarioManager Actor Agent) (timestamp : Timestamp)
    (ego : Actor) (ego_action : Control) : list (@event Actor Control) :=
  [EWatchdogUpdate; EGameTimeOnCarlaTick timestamp; EProviderOnCarlaTick]
  ++ match _agent m with Some _ => [EAgentCall] | None => [] end
  ++ [ETreeTickOnce]
  ++ (if 1 <? _debug_mode m then [EPrintAsciiTree; EStdoutFlush] else [])
  ++ (if _challenge_mode m then [EGetSpectator; EGetTransform ego; ESetTransform] else [])
  ++ match _agent m with Some _ => [EApplyControl ego ego_action] | None => [] end.

End Observations.

(** ** Concrete runs *)

Definition demo_blackboard (completion : float) (in_route : bool) : Blackboard :=
  mkBlackboard (Some completion) (Some 0) (Some 0%float) (Some 0) (Some 0)
    (Some in_route).

(** Collaborators that never raise: the watchdog answers [alive], the tree
    answers [status] after every tick. *)
Definition demo_env (alive : bool) (status : Status) : @Env nat nat :=
  mkEnv (fun _ => false) (fun _ => alive) (fun _ => 7%nat) (fun _ => status)
    (fun _ => demo_blackboard 97 true) (fun _ => 0%float).

Definition demo_manager (agent : option unit) (challenge_mode running : bool)
  : @ScenarioManager nat unit :=
  mkManager "RouteScenario_0" [1%nat] 0 challenge_mode agent running 0%float
    0%float 0%float None None.

Definition demo_state (agent : option unit) (challenge_mode running : bool)
    (status : Status) (b : Blackboard) : @State nat unit nat :=
  mkState (demo_manager agent challenge_mode running) status b [] [].

(** The timestamps a sequence of polls delivers. *)
Definition observed (polls : list (option Timestamp)) : list Timestamp :=
  flat_map (fun p => match p with Some ts => [ts] | None => [] end) polls.

(** The same timestamp polled twice, with an agent attached, the watchdog
    alive and the tree still running. *)
Definition duplicate_polls : list (option Timestamp) :=
  [Some (mkTimestamp 1); Some (mkTimestamp 1)].

Definition duplicate_run_start : @State nat unit nat :=
  demo_state (Some tt) false true RUNNING (demo_blackboard 0 true).

Definition duplicate_run_end : @State nat unit nat :=
  snd (run_loop (demo_env true RUNNING) duplicate_polls duplicate_run_start).

(** A tick in challenge mode after which the tree reports [SUCCESS]. *)
Definition finishing_tick_start : @State nat unit nat :=
  demo_state (Some tt) true true RUNNING (demo_blackboard 0 true).

Definition finishing_tick_end : @State nat unit nat :=
  snd (_tick_scenario (demo_env true SUCCESS) (mkTimestamp 1) finishing_tick_start).

(** ** More observations *)

Section MoreObservations.

Context {Actor Agent Control : Type}.

(** [self._agent()] *)
Definition is_agent_call (e : @event Actor Control) : bool :=
  match e with EAgentCall => true | _ => false end.

(** [self._watchdog.get_status()] *)
Definition is_status_read (e : @event Actor Control) : bool :=
  match e with EWatchdogGetStatus => true | _ => false end.

(** [self._watchdog.stop()] *)
Definition is_watchdog_stop (e : @event Actor Control) : bool :=
  match e with EWatchdogStop => true | _ => false end.

(** The calls [_tick_scenario] can make. *)
Definition is_tick_event (e : @event Actor Control) : bool :=
  (0 <? phase e)%nat.

(** The fields of the manager that [_tick_scenario] only reads. *)
Definition same_setup (m m' : @ScenarioManager Actor Agent) : Prop :=
  scenario_tree_name m' = scenario_tree_name m /\
  ego_vehicles m' = ego_vehicles m /\
  _debug_mode m' = _debug_mode m /\
  _challenge_mode m' = _challenge_mode m /\
  _agent m' = _agent m /\
  scenario_duration_system m' = scenario_duration_system m /\
  scenario_duration_game m' = scenario_duration_game m /\
  start_system_time m' = start_system_time m /\
  end_system_time m' = end_system_time m.

End MoreObservations.

(** ** Loading and stopping a scenario *)

Module Lifecycle.

Section Lifecycle.

Context {Actor Agent Control RawAgent Track : Type}.

(** [AgentWrapper(agent, challenge_mode)], the constructor of the wrapper. *)
Variable AgentWrapper : RawAgent -> bool -> Agent.

(** The behaviour tree of a scenario, as far as the manager looks at it. *)
Record Tree := mkTree { name : string; status : Status }.

(** [scenario.scenario] *)
Record Scenario := mkScenario { scenario_tree : Tree }.

(** The [scenario] argument of [load_scenario]. *)
Record RouteScenario := mkRouteScenario {
  rs_scenario : Scenario;
  rs_ego_vehicles : list Actor;
  rs_other_actors : list Actor
}.

(** Calls to the collaborators made while loading and stopping. *)
Inductive setup_call :=
| GameTimeRestart
| RegisterActors (actors : list Actor)
| SetupSensors (agent : Agent) (vehicle : Actor) (debug_mode : Z) (track : Track)
| ScenarioTerminate (scenario : Scenario)
| AgentCleanup (agent : Agent)
| ProviderCleanup.

(** The manager with the attributes the tick and the reporter do not use;
    [None] is the value [__init__] gives them. *)
Record Session := mkSession {
  state : @State Actor Agent Control;
  scenario : option Scenario;
  scenario_class : option RouteScenario;
  other_actors : option (list Actor);
  _track : Track;
  calls : list setup_call
}.

(** Whether the call just made (the last of the list) raises. *)
Variable raises : list setup_call -> bool.

Definition L (A : Type) : Type := Session -> result A * Session.

Definition lret {A} (a : A) : L A := fun ss => (Ok a, ss).

Definition lbind {A B} (c : L A) (k : A -> L B) : L B :=
  fun ss =>
    match c ss with
    | (Ok a, ss') => k a ss'
    | (Raise e, ss') => (Raise e, ss')
    end.

Definition lraise {A} (e : exn) : L A := fun ss => (Raise e, ss).
Definition lgets {A} (f : Session -> A) : L A := fun ss => (Ok (f ss), ss).
Definition lmodify (f : Session -> Session) : L unit := fun ss => (Ok tt, f ss).

Notation "x <- c ;; k" := (lbind c (fun x => k))
  (at level 61, c at next level, right associativity).
Notation "c ;; k" := (lbind c (fun _ => k))
  (at level 61, right associativity).

(** A call to a collaborator: it is logged, and it may raise. *)
Definition setup (c : setup_call) : L unit :=
  fun ss =>
    let ss' := mkSession (state ss) (scenario ss) (scenario_class ss)
                 (other_actors ss) (_track ss) (calls ss ++ [c]) in
    if raises (calls ss') then (Raise CollaboratorError, ss') else (Ok tt, ss').

(** An assignment to attributes of [self] held by the manager record. *)
Definition assign (f : @ScenarioManager Actor Agent -> @ScenarioManager Actor Agent)
  : L unit :=
  lmodify (fun ss => mkSession (with_self f (state ss)) (scenario ss)
                       (scenario_class ss) (other_actors ss) (_track ss)
                       (calls ss)).

Definition set_agent (a : option Agent) (m : @ScenarioManager Actor Agent)
  : @ScenarioManager Actor Agent :=
  mkManager (scenario_tree_name m) (ego_vehicles m) (_debug_mode m)
    (_challenge_mode m) a (_running m) (_timestamp_last_run m)
    (scenario_duration_system m) (scenario_duration_game m)
    (start_system_time m) (end_system_time m).

Definition set_ego_vehicles (vs : list Actor) (m : @ScenarioManager Actor Agent)
  : @ScenarioManager Actor Agent :=
  mkManager (scenario_tree_name m) vs (_debug_mode m)
    (_challenge_mode m) (_agent m) (_running m) (_timestamp_last_run m)
    (scenario_duration_system m) (scenario_duration_game m)
    (start_system_time m) (end_system_time m).

(** The six assignments of [_reset]. *)
Definition reset_fields (m : @ScenarioManager Actor Agent)
  : @ScenarioManager Actor Agent :=
  mkManager (scenario_tree_name m) (ego_vehicles m) (_debug_mode m)
    (_challenge_mode m) (_agent m) false 0%float 0%float 0%float None None.

(** [self.scenario_tree = tree]: the tree the tick and the reporter see. *)
Definition set_scenario_tree (t : Tree) (ss : Session) : Session :=
  let s := state ss in
  let m := self s in
  mkSession
    (mkState (mkManager (name t) (ego_vehicles m) (_debug_mode m)
                (_challenge_mode m) (_agent m) (_running m)
                (_timestamp_last_run m) (scenario_duration_system m)
                (scenario_duration_game m) (start_system_time m)
                (end_system_time m))
       (status t) (blackv s) (log s) (stdout s))
    (scenario ss) (scenario_class ss) (other_actors ss) (_track ss) (calls ss).

(** [_reset] *)
Definition _reset : L unit :=
  assign reset_fields ;;
  setup GameTimeRestart.

(** [load_scenario]; an agent that is given is taken to be truthy. *)
Definition load_scenario (scenario_arg : RouteScenario) (agent : option RawAgent)
  : L unit :=
  _reset ;;
  challenge_mode <- lgets (fun ss => _challenge_mode (self (state ss))) ;;
  assign (set_agent match agent with
                    | Some a => Some (AgentWrapper a challenge_mode)
                    | None => None
                    end) ;;
  lmodify (fun ss => mkSession (state ss) (scenario ss) (Some scenario_arg)
                       (other_actors ss) (_track ss) (calls ss)) ;;
  lmodify (fun ss => mkSession (state ss) (Some (rs_scenario scenario_arg))
                       (scenario_class ss) (other_actors ss) (_track ss)
                       (calls ss)) ;;
  lmodify (set_scenario_tree (scenario_tree (rs_scenario scenario_arg))) ;;
  assign (set_ego_vehicles (rs_ego_vehicles scenario_arg)) ;;
  lmodify (fun ss => mkSession (state ss) (scenario ss) (scenario_class ss)
                       (Some (rs_other_actors scenario_arg)) (_track ss)
                       (calls ss)) ;;
  setup (RegisterActors (rs_ego_vehicles scenario_arg)) ;;
  setup (RegisterActors (rs_other_actors scenario_arg)) ;;
  wrapper <- lgets (fun ss => _agent (self (state ss))) ;;
  match wrapper with
  | Some w =>
      vs <- lgets (fun ss => ego_vehicles (self (state ss))) ;;
      match vs with
      | v :: _ =>
          debug_mode <- lgets (fun ss => _debug_mode (self (state ss))) ;;
          track <- lgets _track ;;
          setup (SetupSensors w v debug_mode track)
      | [] => lraise IndexError
      end
  | None => lret tt
  end.

(** [stop_scenario] *)
Definition stop_scenario : L unit :=
  sc <- lgets scenario ;;
  match sc with
  | Some x => setup (ScenarioTerminate x)
  | None => lret tt
  end ;;
  wrapper <- lgets (fun ss => _agent (self (state ss))) ;;
  match wrapper with
  | Some w => setup (AgentCleanup w) ;; assign (set_agent None)
  | None => lret tt
  end ;;
  setup ProviderCleanup.

(** The calls made between two states of a session. *)
Definition new_calls (ss ss' : Session) : list setup_call :=
  skipn (List.length (calls ss)) (calls ss').

End Lifecycle.

End Lifecycle.

(** ** More concrete runs *)

(** Collaborators of which only the agent raises, when it is called. *)
Definition demo_env_failing_agent : @Env nat nat :=
  mkEnv (fun l => match rev l with EAgentCall :: _ => true | _ => false end)
    (fun _ => true) (fun _ => 7%nat) (fun _ => RUNNING)
    (fun _ => demo_blackboard 97 true) (fun _ => 0%float).

Definition demo_route_scenario (egos : list nat) : @Lifecycle.RouteScenario nat :=
  Lifecycle.mkRouteScenario
    (Lifecycle.mkScenario (Lifecycle.mkTree "RouteScenario_1" INVALID))
    egos [2%nat; 3%nat].

(** Collaborators that never raise, with a tree that succeeds and criteria
    that wrote every metric but the route completion. *)
Definition demo_env_no_route_completion : @Env nat nat :=
  mkEnv (fun _ => false) (fun _ => true) (fun _ => 7%nat) (fun _ => SUCCESS)
    (fun _ => mkBlackboard None (Some 0) (Some 0%float) (Some 0) (Some 0)
                (Some true))
    (fun _ => 0%float).

(** A manager on which nothing is loaded, with or without a left-over agent. *)
Definition demo_session (agent : option unit)
  : @Lifecycle.Session nat unit nat nat :=
  Lifecycle.mkSession
    (demo_state agent false true RUNNING (demo_blackboard 0 true))
    None None None 0%nat [].

(** A manager with a scenario loaded. *)
Definition demo_loaded_session (agent : option unit)
  : @Lifecycle.Session nat unit nat nat :=
  Lifecycle.mkSession
    (demo_state agent false true RUNNING (demo_blackboard 0 true))
    (Some (Lifecycle.mkScenario (Lifecycle.mkTree "RouteScenario_1" RUNNING)))
    (Some (demo_route_scenario [1%nat])) (Some [2%nat; 3%nat]) 0%nat [].

Definition demo_wrapper (agent : nat) (challenge_mode : bool) : unit := tt.

Definition never_raises (l : list (@Lifecycle.setup_call nat unit nat)) : bool :=
  false.

Definition cleanup_raises (l : list (@Lifecycle.setup_call nat unit nat)) : bool :=
  match rev l with Lifecycle.AgentCleanup _ :: _ => true | _ => false end.

(** ** Comparisons of floats *)

Lemma SFcompare_antisym (x y : spec_float) :
  SFcompare y x = option_map CompOpp (SFcompare x y).
Proof.
  destruct x as [sx|sx| |sx mx ex], y as [sy|sy| |sy my ey]; simpl;
    try reflexivity;
    try (destruct sx; reflexivity); try (destruct sy; reflexivity);
    try (destruct sx, sy; reflexivity).
  destruct sx, sy; simpl; try reflexivity;
    rewrite (Z.compare_antisym ex ey); destruct (ex ?= ey)%Z; simpl;
    try reflexivity;
    rewrite (Pos.compare_cont_antisym mx my Eq); simpl;
    try rewrite CompOpp_involutive; reflexivity.
Qed.

Lemma ltb_eqb_false (x y : float) :
  PrimFloat.ltb x y = true -> PrimFloat.eqb x y = false.
Proof.
  rewrite FloatAxioms.ltb_spec, FloatAxioms.eqb_spec. unfold SFltb, SFeqb.
  destruct (SFcompare (Prim2SF x) (Prim2SF y)) as [[]|]; congruence.
Qed.

Lemma leb_ltb_false (x y : float) :
  PrimFloat.leb y x = true -> PrimFloat.ltb x y = false.
Proof.
  rewrite FloatAxioms.leb_spec, FloatAxioms.ltb_spec. unfold SFleb, SFltb.
  rewrite (SFcompare_antisym (Prim2SF y) (Prim2SF x)).
  destruct (SFcompare (Prim2SF y) (Prim2SF x)) as [[]|]; simpl; congruence.
Qed.

Lemma eqb_ltb_false (x y : float) :
  PrimFloat.eqb y x = true -> PrimFloat.ltb x y = false.
Proof.
  rewrite FloatAxioms.eqb_spec, FloatAxioms.ltb_spec. unfold SFeqb, SFltb.
  rewrite (SFcompare_antisym (Prim2SF y) (Prim2SF x)).
  destruct (SFcompare (Prim2SF y) (Prim2SF x)) as [[]|]; simpl; congruence.
Qed.

Lemma ltb_ltb_false (x y : float) :
  PrimFloat.ltb y x = true -> PrimFloat.ltb x y = false.
Proof.
  rewrite !FloatAxioms.ltb_spec. unfold SFltb.
  rewrite (SFcompare_antisym (Prim2SF y) (Prim2SF x)).
  destruct (SFcompare (Prim2SF y) (Prim2SF x)) as [[]|]; simpl; congruence.
Qed.

(** ** Lists that grow at the end *)

Lemma skipn_length_app {A} (l evs : list A) :
  skipn (List.length l) (l ++ evs) = evs.
Proof. induction l; simpl; auto. Qed.

Lemma skipn_length_self {A} (l : list A) : skipn (List.length l) l = [].
Proof. induction l; simpl; auto. Qed.

(** ** The reporter *)

Section Reporter.

Context {Actor Agent Control : Type}.

Implicit Types s : @State Actor Agent Control.

Ltac run_console :=
  cbv [_console_message bind gets print modify when ret raise new_lines
       set_blackv self tree_status blackv log stdout fst snd
       RouteCompletion Collision OutsideRouteLanes RunningStop
       RunningRedLight InRoute Status_eqb negb].

Ltac read_lines :=
  rewrite <- ?app_assoc;
  rewrite ?skipn_length_app, ?skipn_length_self, ?app_nil_r.

Ltac console_paths st b :=
  destruct st;
  destruct b as [rc [c|] [o|] [st'|] [rl|] [ir|]];
  try destruct rc as [rc|]; try destruct ir;
  run_console;
  try match goal with |- context [py_eq ?x ?y] => destruct (py_eq x y) end.

(** The reporter changes nothing but the console. *)
Lemma console_message_frame s :
  let s' := snd (_console_message s) in
  self s' = self s /\ tree_status s' = tree_status s /\
  blackv s' = blackv s /\ log s' = log s /\
  stdout s' = stdout s ++ new_lines s s'.
Proof.
  destruct s as [m st b lg out].
  console_paths st b; read_lines; auto.
Qed.

(** What the reporter returns and prints is a function of the tree status
    and of the blackboard alone. *)
Lemma console_message_reads s1 s2 :
  tree_status s1 = tree_status s2 -> blackv s1 = blackv s2 ->
  fst (_console_message s1) = fst (_console_message s2) /\
  new_lines s1 (snd (_console_message s1)) =
  new_lines s2 (snd (_console_message s2)).
Proof.
  destruct s1 as [m1 st1 b1 lg1 out1], s2 as [m2 st b lg2 out2].
  cbn [tree_status blackv]. intros -> ->.
  console_paths st b; read_lines; auto.
Qed.

Lemma new_lines_app s s' (ls : list line) :
  stdout s' = stdout s ++ ls -> new_lines s s' = ls.
Proof. unfold new_lines. intros ->. apply skipn_length_app. Qed.

(** With the five checked entries present and the tree not running, a
    missing route completion makes the reporter raise before it prints. *)
Lemma missing_route_completion_raises s c o st rl ir :
  tree_status s <> RUNNING ->
  blackv s = mkBlackboard None (Some c) (Some o) (Some st) (Some rl) (Some ir) ->
  _console_message s = (Raise TypeError, s).
Proof.
  destruct s as [m status b lg out]. cbn [tree_status blackv].
  intros Hst ->. destruct status; run_console; congruence.
Qed.

(** Whichever of the six metrics is absent, nothing is printed but the
    inconclusive notice of a tree that is still running.  This says nothing
    of how the reporter returns. *)
Lemma missing_metric_prints_nothing s :
  RouteCompletion (blackv s) = None \/ Collision (blackv s) = None \/
  OutsideRouteLanes (blackv s) = None \/ RunningStop (blackv s) = None \/
  RunningRedLight (blackv s) = None \/ InRoute (blackv s) = None ->
  stdout (snd (_console_message s)) =
  stdout s ++
    (if Status_eqb (tree_status s) RUNNING then [inconclusive_notice] else []).
Proof.
  destruct s as [m st b lg out]. cbn [blackv tree_status stdout].
  intros H.
  destruct st; [ reflexivity | | | ];
    destruct b as [[rc|] [c|] [o|] [st'|] [rl|] [ir|]];
    cbn [RouteCompletion Collision OutsideRouteLanes RunningStop
         RunningRedLight InRoute] in H;
    run_console; rewrite ?app_nil_r; try reflexivity;
    repeat (destruct H as [H|H]; try discriminate H); discriminate H.
Qed.

(** C4: with all six metrics present and a terminal status, the route
    completion is replaced by 100 as soon as it is at least 99, and the
    first line printed is the verdict fixed by the status, the in-route
    flag and the clamped completion. *)
Theorem verdict_message s rc c o st rl ir :
  blackv s = mkBlackboard (Some rc) (Some c) (Some o) (Some st) (Some rl) (Some ir) ->
  tree_status s = SUCCESS \/ tree_status s = FAILURE ->
  let route_completed := if py_ge (PFloat rc) 99 then PInt 100 else PFloat rc in
  exists message,
    fst (_console_message s) = Ok tt /\
    List.length (new_lines s (snd (_console_message s))) = 8%nat /\
    nth_error (new_lines s (snd (_console_message s))) 0 =
      Some [FStr (NL ++ message)] /\
    nth_error (new_lines s (snd (_console_message s))) 3 =
      Some [FStr "> - Route Completed [";
            FStr (get_symbol route_completed 100 true);
            FStr "]:      "; FNum route_completed; FStr "%"] /\
    (py_ge (PFloat rc) 99 = true -> route_completed = PInt 100) /\
    (tree_status s = FAILURE -> ir = false ->
       message = "> FAILED: The actor deviated from the route") /\
    (tree_status s = FAILURE -> ir = true ->
       message = "> FAILED: The actor didn't finish the route") /\
    (tree_status s = SUCCESS -> py_eq route_completed 100 = true ->
       message = "> SUCCESS: Congratulations, route finished! ") /\
    (tree_status s = SUCCESS -> py_lt route_completed 100 = true ->
       message = "> FAILED: The actor timed out ").
Proof.
  destruct s as [m status b lg out].
  intros Hb Hst route_completed. cbn [tree_status blackv] in Hb, Hst |- *.
  subst b.
  assert (Hclamp : py_ge (PFloat rc) 99 = true -> route_completed = PInt 100).
  { intros E. unfold route_completed. rewrite E. reflexivity. }
  assert (Hlt : py_lt route_completed 100 = true ->
                py_eq route_completed 100 = false).
  { unfold route_completed. destruct (py_ge (PFloat rc) 99).
    - discriminate.
    - apply ltb_eqb_false. }
  destruct Hst as [-> | ->].
  - destruct (py_eq route_completed 100) eqn:Heq.
    + exists "> SUCCESS: Congratulations, route finished! ".
      run_console. fold route_completed. rewrite Heq. read_lines.
      repeat split; auto; try congruence.
      intros _ E. apply Hlt in E. congruence.
    + exists "> FAILED: The actor timed out ".
      run_console. fold route_completed. rewrite Heq. read_lines.
      repeat split; auto; congruence.
  - destruct ir.
    + exists "> FAILED: The actor didn't finish the route".
      run_console. fold route_completed. read_lines.
      repeat split; auto; congruence.
    + exists "> FAILED: The actor deviated from the route".
      run_console. fold route_completed. read_lines.
      repeat split; auto; congruence.
Qed.

(** C8: when the tree is still running the reporter prints the
    inconclusive notice and nothing else, whatever the blackboard holds. *)
Theorem running_status_gives_only_notice s :
  tree_status s = RUNNING ->
  forall b : Blackboard,
    _console_message (set_blackv b s) =
    (Ok tt, mkState (self s) RUNNING b (log s) (stdout s ++ [inconclusive_notice])).
Proof.
  destruct s as [m st b0 lg out]. cbn [tree_status].
  intros -> b. reflexivity.
Qed.

(** C9: the reporter run twice returns the same result and prints the same
    lines both times, and leaves the manager, the tree status, the
    blackboard and the log of calls as they were. *)
Theorem console_message_twice s :
  let r1 := _console_message s in
  let r2 := _console_message (snd r1) in
  fst r2 = fst r1 /\
  new_lines (snd r1) (snd r2) = new_lines s (snd r1) /\
  (self (snd r1) = self s /\ tree_status (snd r1) = tree_status s /\
   blackv (snd r1) = blackv s /\ log (snd r1) = log s) /\
  (self (snd r2) = self s /\ tree_status (snd r2) = tree_status s /\
   blackv (snd r2) = blackv s /\ log (snd r2) = log s).
Proof.
  intros r1 r2. subst r1 r2.
  destruct (console_message_frame s) as (F1 & F2 & F3 & F4 & _).
  destruct (console_message_frame (snd (_console_message s)))
    as (G1 & G2 & G3 & G4 & _).
  cbv zeta in *.
  destruct (console_message_reads (snd (_console_message s)) s F2 F3) as [R1 R2].
  repeat split; congruence.
Qed.

End Reporter.

(** ** The orchestrator *)

Section Orchestrator.

Context {Actor Agent Control : Type}.

Implicit Types (s : @State Actor Agent Control) (env : @Env Actor Control).

Ltac open_state s :=
  let m := fresh "m" in
  destruct s as [m ? ? ? ?]; destruct m.

Ltac run_tick :=
  cbv [_tick_scenario _signal_handler get_running_status
       bind gets modify when ret raise call record agent_call tree_tick_once
       watchdog_get_status ego_vehicle0 with_self set_running
       set_timestamp_last_run print new_events
       self tree_status blackv log stdout scenario_tree_name ego_vehicles
       _debug_mode _challenge_mode _agent _running _timestamp_last_run
       elapsed_seconds fst snd negb].

Ltac split_path :=
  match goal with
  | |- context [Status_eqb ?x ?y] => destruct (Status_eqb x y) eqn:?
  | |- context [if ?b then _ else _] => destruct b eqn:?
  | |- context [match ?x with Some _ => _ | None => _ end] => destruct x eqn:?
  | |- context [match ?x with [] => _ | _ :: _ => _ end] => destruct x eqn:?
  end.

Ltac read_log :=
  rewrite <- ?app_assoc;
  rewrite ?skipn_length_app, ?skipn_length_self, ?app_nil_r;
  repeat match goal with
         | H : context [(_ ++ _) ++ _] |- _ => rewrite <- !app_assoc in H
         end.

(** What one call of [_tick_scenario] does, whatever the collaborators
    answer and wherever one of them raises. *)
Lemma tick_summary env ts s :
  let r := _tick_scenario env ts s in
  let s' := snd r in
  let evs := new_events s s' in
  log s' = log s ++ evs /\
  ascending 0 (map phase evs) = true /\
  _agent (self s') = _agent (self s) /\
  (PrimFloat.ltb (_timestamp_last_run (self s)) (elapsed_seconds ts) = false ->
     filter is_cycle_event evs = [] /\
     _timestamp_last_run (self s') = _timestamp_last_run (self s) /\
     _running (self s') = _running (self s) /\
     tree_status s' = tree_status s /\ blackv s' = blackv s /\
     stdout s' = stdout s) /\
  (PrimFloat.ltb (_timestamp_last_run (self s)) (elapsed_seconds ts) = true ->
     hd_error evs = Some EWatchdogUpdate /\
     _timestamp_last_run (self s') = elapsed_seconds ts /\
     (processed evs = [elapsed_seconds ts] \/
      processed evs = [] /\ fst r = Raise CollaboratorError)) /\
  (_running (self s') = true -> _running (self s) = true) /\
  (count is_world_tick evs <= 1)%nat /\
  (count is_world_tick evs = 1%nat ->
     _agent (self s') <> None /\ _running (self s') = true /\
     env_alive env (log s ++ removelast evs) = true).
Proof.
  open_state s. destruct ts as [t]. cbv zeta. run_tick.
  repeat split_path;
    read_log; cbn;
    repeat split; intros; auto; try congruence; try lia; try assumption.
Qed.

(** One call of [_tick_scenario] on a newer timestamp when no collaborator
    raises: the calls made are those of the cycle, in the order of the
    source, followed by the guarded advance of the world. *)
Lemma tick_cycle_trace env ts s ego rest :
  (forall l, env_raises env l = false) ->
  ego_vehicles (self s) = ego :: rest ->
  PrimFloat.ltb (_timestamp_last_run (self s)) (elapsed_seconds ts) = true ->
  let pre := log s ++ [EWatchdogUpdate; EGameTimeOnCarlaTick ts;
                       EProviderOnCarlaTick]
                   ++ match _agent (self s) with
                      | Some _ => [EAgentCall]
                      | None => []
                      end in
  let ego_action := env_action env pre in
  let status := env_tree env (pre ++ [ETreeTickOnce]) in
  let cyc := cycle_events (self s) ts ego ego_action in
  let running := if Status_eqb status RUNNING then _running (self s) else false in
  let adv := match _agent (self s) with
             | Some _ =>
                 if running then
                   EWatchdogGetStatus ::
                   (if env_alive env (log s ++ cyc ++ [EWatchdogGetStatus])
                    then [EWorldTick] else [])
                 else []
             | None => []
             end in
  let r := _tick_scenario env ts s in
  fst r = Ok tt /\
  tree_status (snd r) = status /\
  _running (self (snd r)) = running /\
  new_events s (snd r) = cyc ++ adv.
Proof.
  open_state s. destruct ts as [t].
  intros Hno Hego Hlt pre ego_action status cyc running adv r.
  cbn [self ego_vehicles _timestamp_last_run elapsed_seconds] in Hego, Hlt.
  subst r. run_tick. rewrite Hlt, Hego. cbv beta iota.
  repeat (first [ rewrite Hno | split_path ]; cbv beta iota).
  all: subst pre ego_action status cyc running adv; unfold cycle_events;
    cbn [self log _agent _debug_mode _challenge_mode _running];
    read_log; cbn [app] in *;
    repeat match goal with
           | H : ?x = _ |- context [?x] => rewrite H
           end;
    cbn [app]; rewrite <- ?app_assoc; cbn [app];
    repeat match goal with
           | H : ?x = _ |- context [?x] => rewrite H
           end;
    repeat split; try reflexivity; try congruence.
Qed.

(** *** The loop *)

Lemma new_events_of_log s s' (evs : list (@event Actor Control)) :
  log s' = log s ++ evs -> new_events s s' = evs.
Proof. unfold new_events. intros ->. apply skipn_length_app. Qed.

Lemma new_events_refl s : new_events s s = [].
Proof. apply skipn_length_self. Qed.

Lemma processed_app (e1 e2 : list (@event Actor Control)) :
  processed (e1 ++ e2) = processed e1 ++ processed e2.
Proof.
  induction e1 as [|e e1 IH]; [reflexivity|].
  destruct e; cbn [app processed]; rewrite IH; reflexivity.
Qed.

Lemma processed_no_cycle (evs : list (@event Actor Control)) :
  filter is_cycle_event evs = [] -> processed evs = [].
Proof.
  induction evs as [|e evs IH]; [reflexivity|].
  destruct e; cbn [filter is_cycle_event processed]; intros H;
    try discriminate H; auto.
Qed.

Lemma count_app (p : @event Actor Control -> bool) e1 e2 :
  count p (e1 ++ e2) = (count p e1 + count p e2)%nat.
Proof. unfold count. rewrite filter_app, length_app. reflexivity. Qed.

Lemma last_cons (x d : float) (l : list float) :
  List.last (x :: l) d = List.last l x.
Proof.
  revert x d. induction l as [|y l IH]; intros x d; [reflexivity|].
  change (List.last (x :: y :: l) d) with (List.last (y :: l) d).
  rewrite (IH y d), (IH y x). reflexivity.
Qed.

Lemma run_loop_not_running env polls s :
  _running (self s) = false -> run_loop env polls s = (Ok true, s).
Proof.
  intros H. destruct polls; cbn [run_loop]; unfold bind, gets; rewrite H;
    reflexivity.
Qed.

Lemma run_loop_nil env s :
  _running (self s) = true -> run_loop env [] s = (Ok false, s).
Proof.
  intros H. cbn [run_loop]. unfold bind, gets. rewrite H. reflexivity.
Qed.

Lemma run_loop_cons env p polls s :
  _running (self s) = true ->
  run_loop env (p :: polls) s =
  match match p with
        | Some ts => _tick_scenario env ts s
        | None => (Ok tt, s)
        end with
  | (Ok _, s1) => run_loop env polls s1
  | (Raise e, s1) => (Raise e, s1)
  end.
Proof.
  intros H. cbn [run_loop]. unfold bind at 1. unfold gets. rewrite H.
  destruct p; reflexivity.
Qed.

(** What the loop does over any sequence of polls. *)
Lemma run_loop_summary env polls : forall s,
  let r := run_loop env polls s in
  let evs := new_events s (snd r) in
  log (snd r) = log s ++ evs /\
  increasing_from (_timestamp_last_run (self s)) (processed evs) /\
  (forall b, fst r = Ok b ->
     _timestamp_last_run (self (snd r)) =
     List.last (processed evs) (_timestamp_last_run (self s))) /\
  (count is_world_tick evs <= List.length (observed polls))%nat.
Proof.
  assert (Hstop : forall (s : @State Actor Agent Control) n,
    let evs := new_events s s in
    log s = log s ++ evs /\
    increasing_from (_timestamp_last_run (self s)) (processed evs) /\
    (_timestamp_last_run (self s) =
     List.last (processed evs) (_timestamp_last_run (self s))) /\
    (count is_world_tick evs <= n)%nat).
  { intros s n. cbv zeta. rewrite new_events_refl, app_nil_r.
    cbn. repeat split; auto. lia. }
  induction polls as [|p polls IH]; intros s; cbv zeta.
  - destruct (_running (self s)) eqn:Hrun.
    + rewrite (run_loop_nil env s Hrun). cbn [fst snd].
      destruct (Hstop s (List.length (observed []))) as (A & B & C & D).
      repeat split; auto.
    + rewrite (run_loop_not_running env [] s Hrun). cbn [fst snd].
      destruct (Hstop s (List.length (observed []))) as (A & B & C & D).
      repeat split; auto.
  - destruct (_running (self s)) eqn:Hrun.
    2:{ rewrite (run_loop_not_running env (p :: polls) s Hrun). cbn [fst snd].
        destruct (Hstop s (List.length (observed (p :: polls))))
          as (A & B & C & D).
        repeat split; auto. }
    rewrite (run_loop_cons env p polls s Hrun).
    destruct p as [ts|].
    + pose proof (tick_summary env ts s) as T. cbv zeta in T.
      destruct (_tick_scenario env ts s) as [[u|e] s1]; cbn [fst snd] in T;
        destruct T as (L1 & _ & _ & Hf & Ht & _ & C1 & _).
      * specialize (IH s1). cbv zeta in IH.
        destruct IH as (L2 & I2 & F2 & C2).
        set (r := run_loop env polls s1) in *.
        assert (E : new_events s (snd r) =
                    new_events s s1 ++ new_events s1 (snd r)).
        { apply new_events_of_log. rewrite L2, L1 at 1.
          rewrite <- app_assoc. reflexivity. }
        rewrite E, processed_app, count_app.
        split; [rewrite L2, L1 at 1; rewrite <- app_assoc; reflexivity|].
        destruct (PrimFloat.ltb (_timestamp_last_run (self s))
                    (elapsed_seconds ts)) eqn:Hlt.
        -- destruct (Ht eq_refl) as (_ & Hl & [Hp | [_ Hr]]);
             [|discriminate Hr].
           rewrite Hp. rewrite Hl in I2, F2. cbn [app increasing_from].
           repeat split; auto.
           ++ intros b Hb. rewrite last_cons. exact (F2 b Hb).
           ++ cbn [observed flat_map app List.length].
              fold (observed polls). lia.
        -- destruct (Hf eq_refl) as (Hc & Hl & _).
           rewrite (processed_no_cycle _ Hc). rewrite Hl in I2, F2.
           cbn [app]. repeat split; auto.
           cbn [observed flat_map app List.length].
           fold (observed polls). lia.
      * cbn [fst snd]. split; [exact L1|].
        split.
        { destruct (PrimFloat.ltb (_timestamp_last_run (self s))
                      (elapsed_seconds ts)) eqn:Hlt.
          - destruct (Ht eq_refl) as (_ & _ & [Hp | [Hp _]]); rewrite Hp;
              cbn [increasing_from]; auto.
          - destruct (Hf eq_refl) as (Hc & _).
            rewrite (processed_no_cycle _ Hc). exact I. }
        split; [intros b Hb; discriminate Hb|].
        cbn [observed flat_map app List.length]. lia.
    + specialize (IH s). cbv zeta in IH. destruct IH as (L2 & I2 & F2 & C2).
      repeat split; auto.
Qed.

Lemma signal_handler_run env s :
  _signal_handler env s =
  (if env_alive env (log s ++ [EWatchdogGetStatus])
   then Ok tt
   else Raise (RuntimeError "Timeout occured during scenario execution"),
   record EWatchdogGetStatus (with_self (set_running false) s)).
Proof.
  open_state s. run_tick.
  destruct (env_alive env _); reflexivity.
Qed.

(** *** The claims about the orchestrator *)

(** C1: a call of the tick operation runs the per-cycle block only when the
    elapsed seconds of its timestamp are strictly greater than the stored
    last-processed value; a duplicate or regressed timestamp makes none of
    the cycle's calls and leaves the stored value alone; when a cycle runs
    the stored value becomes the new elapsed seconds.  Over any sequence of
    polls fed to the loop, the timestamps the game clock is moved to are
    strictly increasing. *)
Theorem cycle_only_on_newer_timestamp env :
  (forall ts s,
     let s' := snd (_tick_scenario env ts s) in
     let evs := new_events s s' in
     (PrimFloat.ltb (_timestamp_last_run (self s)) (elapsed_seconds ts) = false ->
        filter is_cycle_event evs = [] /\
        _timestamp_last_run (self s') = _timestamp_last_run (self s)) /\
     (PrimFloat.eqb (elapsed_seconds ts) (_timestamp_last_run (self s)) = true \/
      PrimFloat.ltb (elapsed_seconds ts) (_timestamp_last_run (self s)) = true ->
        filter is_cycle_event evs = [] /\
        _timestamp_last_run (self s') = _timestamp_last_run (self s)) /\
     (PrimFloat.ltb (_timestamp_last_run (self s)) (elapsed_seconds ts) = true ->
        hd_error evs = Some EWatchdogUpdate /\
        _timestamp_last_run (self s') = elapsed_seconds ts)) /\
  (forall polls s,
     let r := run_loop env polls s in
     let evs := new_events s (snd r) in
     increasing_from (_timestamp_last_run (self s)) (processed evs) /\
     (forall b, fst r = Ok b ->
        _timestamp_last_run (self (snd r)) =
        List.last (processed evs) (_timestamp_last_run (self s)))).
Proof.
  split.
  - intros ts s. cbv zeta.
    destruct (tick_summary env ts s) as (_ & _ & _ & Hf & Ht & _).
    assert (Hno : PrimFloat.ltb (_timestamp_last_run (self s))
                    (elapsed_seconds ts) = false ->
                  filter is_cycle_event
                    (new_events s (snd (_tick_scenario env ts s))) = [] /\
                  _timestamp_last_run (self (snd (_tick_scenario env ts s))) =
                  _timestamp_last_run (self s)).
    { intros H. destruct (Hf H) as (A & B & _). auto. }
    repeat split.
    + apply Hno; assumption.
    + apply Hno; assumption.
    + destruct H as [H|H]; apply Hno;
        [apply eqb_ltb_false | apply ltb_ltb_false]; exact H.
    + destruct H as [H|H]; apply Hno;
        [apply eqb_ltb_false | apply ltb_ltb_false]; exact H.
    + apply (Ht H).
    + apply (Ht H).
  - intros polls s. cbv zeta.
    destruct (run_loop_summary env polls s) as (_ & I & F & _). auto.
Qed.

(** C2: the world is ticked at most once per call of the tick
    operation, hence at most once per observed timestamp whether or not it
    is strictly new; and only with an agent attached, the running flag true
    and the watchdog status just read alive. *)
Theorem world_tick_guard env :
  (forall ts s,
     let s' := snd (_tick_scenario env ts s) in
     let evs := new_events s s' in
     (count is_world_tick evs <= 1)%nat /\
     (count is_world_tick evs = 1%nat ->
        _agent (self s) <> None /\
        _running (self s) = true /\ _running (self s') = true /\
        env_alive env (log s ++ removelast evs) = true)) /\
  (forall polls s,
     (count is_world_tick (new_events s (snd (run_loop env polls s))) <=
      List.length (observed polls))%nat).
Proof.
  split.
  - intros ts s. cbv zeta.
    destruct (tick_summary env ts s) as (_ & _ & Ha & _ & _ & Hr & C & G).
    split; [exact C|]. intros H. destruct (G H) as (A & R & W).
    rewrite Ha in A. auto.
  - intros polls s. apply (run_loop_summary env polls s).
Qed.

(** C5: the handler always clears the running flag; it returns normally
    when the watchdog status it reads is alive, after which the loop is
    left without another tick, and it raises the timeout error when the
    watchdog has expired. *)
Theorem signal_handler_outcome env s :
  let r := _signal_handler env s in
  _running (self (snd r)) = false /\
  fst r = (if env_alive env (log s ++ [EWatchdogGetStatus])
           then Ok tt
           else Raise (RuntimeError "Timeout occured during scenario execution")) /\
  (forall polls, run_loop env polls (snd r) = (Ok true, snd r)).
Proof.
  cbv zeta. rewrite signal_handler_run. cbn [fst snd].
  repeat split. intros polls. apply run_loop_not_running. reflexivity.
Qed.

(** C6: in a cycle after whose tick the tree is no longer
    running, the running flag is cleared, the spectator update is made
    exactly when challenge mode is on (it is not skipped), the control
    command is applied when an agent is attached, and the world is not
    ticked. *)
Theorem status_left_running env ts s ego rest :
  (forall l, env_raises env l = false) ->
  ego_vehicles (self s) = ego :: rest ->
  PrimFloat.ltb (_timestamp_last_run (self s)) (elapsed_seconds ts) = true ->
  tree_status (snd (_tick_scenario env ts s)) <> RUNNING ->
  let r := _tick_scenario env ts s in
  let evs := new_events s (snd r) in
  fst r = Ok tt /\
  _running (self (snd r)) = false /\
  filter is_spectator_update evs =
    (if _challenge_mode (self s)
     then [EGetSpectator; EGetTransform ego; ESetTransform] else []) /\
  count is_apply_control evs =
    match _agent (self s) with Some _ => 1%nat | None => 0%nat end /\
  count is_world_tick evs = 0%nat.
Proof.
  intros Hno Hego Hlt Hst. cbv zeta.
  destruct (tick_cycle_trace env ts s ego rest Hno Hego Hlt)
    as (Hok & Hs & Hr & He).
  rewrite Hs in Hst. rewrite Hok, Hr, He. clear Hok Hs Hr He.
  destruct (Status_eqb _ RUNNING) eqn:Heq.
  { exfalso. apply Hst. revert Heq.
    destruct (env_tree env _); cbn; congruence. }
  unfold cycle_events.
  destruct (_agent (self s)); destruct (1 <? _debug_mode (self s));
    destruct (_challenge_mode (self s)); cbn; auto.
Qed.

(** C7: a cycle on a strictly newer timestamp, when no collaborator raises,
    makes exactly the calls of [cycle_events], in that order: the watchdog
    update, the game clock and the data provider, the agent if attached,
    one tick of the tree, and after it the control command; only the
    guarded advance of the world may follow. *)
Theorem cycle_steps_in_order env ts s ego rest :
  (forall l, env_raises env l = false) ->
  ego_vehicles (self s) = ego :: rest ->
  PrimFloat.ltb (_timestamp_last_run (self s)) (elapsed_seconds ts) = true ->
  let r := _tick_scenario env ts s in
  let evs := new_events s (snd r) in
  let ego_action :=
    env_action env (log s ++ [EWatchdogUpdate; EGameTimeOnCarlaTick ts;
                              EProviderOnCarlaTick; EAgentCall]) in
  fst r = Ok tt /\
  firstn 3 evs = [EWatchdogUpdate; EGameTimeOnCarlaTick ts;
                  EProviderOnCarlaTick] /\
  (exists adv, evs = cycle_events (self s) ts ego ego_action ++ adv /\
               filter is_cycle_event adv = []) /\
  count is_tree_tick evs = 1%nat /\
  count is_apply_control evs =
    match _agent (self s) with Some _ => 1%nat | None => 0%nat end /\
  ascending 0 (map phase evs) = true.
Proof.
  intros Hno Hego Hlt. cbv zeta.
  destruct (tick_summary env ts s) as (_ & Hasc & _).
  destruct (tick_cycle_trace env ts s ego rest Hno Hego Hlt)
    as (Hok & _ & _ & He).
  split; [exact Hok|]. split; [rewrite He; reflexivity|].
  split; [|split; [|split; [|exact Hasc]]]; rewrite He; clear He Hasc Hok;
    unfold cycle_events;
    destruct (_agent (self s)); destruct (1 <? _debug_mode (self s));
    destruct (_challenge_mode (self s));
    repeat match goal with
           | |- context [if ?b then _ else _] => destruct b
           end;
    cbn [app]; try reflexivity;
    eexists; (split; [reflexivity | reflexivity]).
Qed.

End Orchestrator.

(** ** The running status *)

(** C10: [get_running_status] returns the watchdog status it reads and
    nothing else: changing the manager's own running flag does not change
    its result; it is true after a cancellation when the watchdog is alive,
    and false with the running flag still set when the watchdog has
    expired. *)
Theorem running_status_is_watchdog_flag :
  (forall (Actor Agent Control : Type) (env : @Env Actor Control)
          (s : @State Actor Agent Control),
     fst (get_running_status env s) =
     Ok (env_alive env (log s ++ [EWatchdogGetStatus]))) /\
  (forall (Actor Agent Control : Type) (env : @Env Actor Control)
          (s : @State Actor Agent Control) (b : bool),
     fst (get_running_status env (with_self (set_running b) s)) =
     fst (get_running_status env s)) /\
  (forall (status : Status) (s : @State nat unit nat),
     _running (self (snd (_signal_handler (demo_env true status) s))) = false /\
     fst (get_running_status (demo_env true status)
            (snd (_signal_handler (demo_env true status) s))) = Ok true) /\
  (forall (status : Status) (s : @State nat unit nat),
     _running (self (with_self (set_running true) s)) = true /\
     fst (get_running_status (demo_env false status)
            (with_self (set_running true) s)) = Ok false).
Proof.
  repeat split.
Qed.

(** ** The scenarios of the specification, run *)

Example symbol_for_97_percent : get_symbol (PFloat 97) 100 true = cross.
Proof. vm_compute. reflexivity. Qed.

Example symbol_for_no_collision : get_symbol (PInt 0) 0 false = tick.
Proof. vm_compute. reflexivity. Qed.

Example report_of_full_route :
  nth_error
    (stdout (snd (_console_message
                    (demo_state None false false SUCCESS (demo_blackboard 100 true)))))
    0 = Some [FStr (NL ++ "> SUCCESS: Congratulations, route finished! ")].
Proof. vm_compute. reflexivity. Qed.

Example report_of_deviation :
  nth_error
    (stdout (snd (_console_message
                    (demo_state None false false FAILURE (demo_blackboard 40 false)))))
    0 = Some [FStr (NL ++ "> FAILED: The actor deviated from the route")].
Proof. vm_compute. reflexivity. Qed.

(** A whole run: one new timestamp, the tree succeeds at 97 percent of the
    route, the loop is left and the reporter prints the time-out verdict. *)
Example run_scenario_reports_timeout :
  fst (run_scenario (demo_env true SUCCESS) [Some (mkTimestamp 1)]
         (demo_state (Some tt) false false RUNNING (demo_blackboard 0 true)))
  = Ok true /\
  nth_error
    (stdout (snd (run_scenario (demo_env true SUCCESS) [Some (mkTimestamp 1)]
                    (demo_state (Some tt) false false RUNNING
                       (demo_blackboard 0 true)))))
    1 = Some [FStr (NL ++ "> FAILED: The actor timed out ")].
Proof. vm_compute. split; reflexivity. Qed.

(** ** A missing route completion *)

(** C3: the reporter checks five of the six metrics for absence and leaves
    the route completion out.  When one of the five is absent and the tree
    is not running it returns normally and prints nothing; when the route
    completion alone is absent it raises [TypeError] at the comparison with
    99, printing nothing, and the exception leaves [run_scenario]. *)
Theorem missing_route_completion_is_not_checked :
  (forall (Actor Agent Control : Type) (s : @State Actor Agent Control),
     tree_status s <> RUNNING ->
     Collision (blackv s) = None \/ OutsideRouteLanes (blackv s) = None \/
     RunningStop (blackv s) = None \/ RunningRedLight (blackv s) = None \/
     InRoute (blackv s) = None ->
     _console_message s = (Ok tt, s)) /\
  (forall (Actor Agent Control : Type) (s : @State Actor Agent Control)
          c o st rl ir,
     tree_status s <> RUNNING ->
     blackv s = mkBlackboard None (Some c) (Some o) (Some st) (Some rl) (Some ir) ->
     _console_message s = (Raise TypeError, s)) /\
  _console_message
    (demo_state None false false SUCCESS
       (mkBlackboard None (Some 0) (Some 0%float) (Some 0) (Some 0) (Some true)))
  = (Raise TypeError,
     demo_state None false false SUCCESS
       (mkBlackboard None (Some 0) (Some 0%float) (Some 0) (Some 0) (Some true))) /\
  _console_message
    (demo_state None false false FAILURE
       (mkBlackboard None (Some 0) (Some 0%float) (Some 0) (Some 0) (Some true)))
  = (Raise TypeError,
     demo_state None false false FAILURE
       (mkBlackboard None (Some 0) (Some 0%float) (Some 0) (Some 0) (Some true))) /\
  fst (run_scenario demo_env_no_route_completion [Some (mkTimestamp 1)]
         (demo_state (Some tt) false false RUNNING (demo_blackboard 0 true)))
  = Raise TypeError.
Proof.
  split; [|split; [|split; [|split]]].
  - intros Actor Agent Control s Hst H.
    destruct s as [m status b lg out]. cbn [tree_status blackv] in Hst, H.
    destruct status; [congruence| | | ];
      destruct b as [rc [c|] [o|] [st|] [rl|] [ir|]];
      cbn [Collision OutsideRouteLanes RunningStop RunningRedLight InRoute] in H;
      try reflexivity;
      repeat (destruct H as [H|H]; try discriminate H); discriminate H.
  - intros Actor Agent Control s c o st rl ir Hst Hb.
    exact (missing_route_completion_raises s c o st rl ir Hst Hb).
  - reflexivity.
  - reflexivity.
  - vm_compute. reflexivity.
Qed.

(** ** Concrete instances *)

(** Completion 97 with a successful tree: the verdict is the time-out. *)
Lemma verdict_message_witness :
  nth_error
    (new_lines
       (demo_state None false false SUCCESS (demo_blackboard 97 true))
       (snd (_console_message
               (demo_state None false false SUCCESS (demo_blackboard 97 true)))))
    0 = Some [FStr (NL ++ "> FAILED: The actor timed out ")].
Proof.
  destruct (verdict_message
              (demo_state None false false SUCCESS (demo_blackboard 97 true))
              97%float 0 0%float 0 0 true eq_refl (or_introl eq_refl))
    as (message & _ & _ & H0 & _ & _ & _ & _ & _ & Ht).
  rewrite (Ht eq_refl eq_refl) in H0. exact H0.
Defined.

(** The tree still running: only the notice, whatever the blackboard. *)
Lemma running_status_gives_only_notice_witness :
  stdout (snd (_console_message
                 (set_blackv (demo_blackboard 100 true)
                    (demo_state None false false RUNNING
                       (demo_blackboard 0 true))))) = [inconclusive_notice].
Proof.
  rewrite (running_status_gives_only_notice
             (demo_state None false false RUNNING (demo_blackboard 0 true))
             eq_refl (demo_blackboard 100 true)).
  reflexivity.
Defined.

(** C2, counterexample to one advance per new timestamp: the same
    timestamp polled twice starts one cycle, and the world is ticked
    twice. *)
Lemma world_ticked_twice_for_one_new_timestamp :
  processed (new_events duplicate_run_start duplicate_run_end) = [1%float] /\
  count is_world_tick (new_events duplicate_run_start duplicate_run_end) = 2%nat /\
  Nat.leb (count is_world_tick (new_events duplicate_run_start duplicate_run_end))
          (List.length (processed (new_events duplicate_run_start duplicate_run_end)))
  = false.
Proof. vm_compute. repeat split. Qed.

(** C6, counterexample to the skipped update: the tree reports [SUCCESS], the
    running flag is cleared, and the spectator update is made all the same. *)
Lemma spectator_update_not_skipped :
  tree_status finishing_tick_end = SUCCESS /\
  _running (self finishing_tick_end) = false /\
  filter is_spectator_update (new_events finishing_tick_start finishing_tick_end) =
    [EGetSpectator; EGetTransform 1%nat; ESetTransform].
Proof. vm_compute. repeat split. Qed.

Lemma status_left_running_witness :
  _running (self finishing_tick_end) = false /\
  count is_apply_control (new_events finishing_tick_start finishing_tick_end) = 1%nat /\
  count is_world_tick (new_events finishing_tick_start finishing_tick_end) = 0%nat.
Proof.
  destruct (status_left_running (demo_env true SUCCESS) (mkTimestamp 1)
              finishing_tick_start 1%nat []) as (_ & Hr & _ & Ha & Hw).
  - intros l. reflexivity.
  - reflexivity.
  - reflexivity.
  - vm_compute. discriminate.
  - repeat split; assumption.
Defined.

Lemma cycle_steps_in_order_witness :
  firstn 3 (new_events finishing_tick_start finishing_tick_end) =
    [EWatchdogUpdate; EGameTimeOnCarlaTick (mkTimestamp 1); EProviderOnCarlaTick] /\
  count is_tree_tick (new_events finishing_tick_start finishing_tick_end) = 1%nat.
Proof.
  destruct (cycle_steps_in_order (demo_env true SUCCESS) (mkTimestamp 1)
              finishing_tick_start 1%nat []) as (_ & H3 & _ & Ht & _).
  - intros l. reflexivity.
  - reflexivity.
  - reflexivity.
  - split; assumption.
Defined.

(** ** Further properties of the reporter *)

Section ReporterMore.

Context {Actor Agent Control : Type}.

Implicit Types s : @State Actor Agent Control.

Ltac run_report :=
  cbv [_console_message bind gets print modify when ret raise new_lines
       self tree_status blackv log stdout fst snd
       RouteCompletion Collision OutsideRouteLanes RunningStop
       RunningRedLight InRoute Status_eqb negb].

Ltac read_report :=
  rewrite <- ?app_assoc;
  rewrite ?skipn_length_app, ?skipn_length_self, ?app_nil_r.

(** A float equal to 100 is at least 99. *)
Lemma eqb_100_leb_99 (x : float) :
  PrimFloat.eqb x (float_of_Z 100) = true ->
  PrimFloat.leb (float_of_Z 99) x = true.
Proof.
  rewrite FloatAxioms.eqb_spec, FloatAxioms.leb_spec.
  set (c := Prim2SF (float_of_Z 100)). vm_compute in c.
  set (d := Prim2SF (float_of_Z 99)). vm_compute in d.
  subst c d. unfold SFeqb, SFleb.
  destruct (Prim2SF x) as [sx|sx| |sx mx ex]; cbn [SFcompare];
    try discriminate;
    try (destruct sx; discriminate).
  destruct sx; [discriminate|].
  destruct (ex ?= -46) eqn:He; try discriminate.
  apply Z.compare_eq in He. subst ex.
  destruct (Pos.compare_cont Eq mx 7036874417766400) eqn:Hm; try discriminate.
  apply Pos.compare_eq in Hm. subst mx. intros _. reflexivity.
Qed.

(** [-1 * v >= 0] on ints is [v <= 0]. *)
Lemma get_symbol_count (v : Z) :
  get_symbol (PInt v) 0 false = if v <=? 0 then tick else cross.
Proof.
  unfold get_symbol, py_mul, py_ge.
  destruct (Z.leb_spec 0 (-1 * v)), (Z.leb_spec v 0); try reflexivity; lia.
Qed.

(** X1: a tree that was never ticked has status [INVALID]; the reporter
    then prints nothing, not even the inconclusive notice, and returns
    normally unless the route completion alone is missing. *)
Theorem invalid_status_prints_nothing s :
  tree_status s = INVALID ->
  stdout (snd (_console_message s)) = stdout s /\
  (RouteCompletion (blackv s) <> None -> fst (_console_message s) = Ok tt).
Proof.
  destruct s as [m st b lg out]. cbn [tree_status blackv stdout].
  intros ->.
  destruct b as [[rc|] [c|] [o|] [st'|] [rl|] [ir|]]; run_report;
    split; try reflexivity; intros H; try reflexivity; congruence.
Qed.

(** X2: with a successful tree and all metrics present the verdict is
    [finished] exactly when the route completion is at least 99, and the
    time-out otherwise (a completion that is not a number included); in
    the first case the route line shows 100 with the passing symbol. *)
Theorem success_verdict s rc c o st rl ir :
  blackv s = mkBlackboard (Some rc) (Some c) (Some o) (Some st) (Some rl) (Some ir) ->
  tree_status s = SUCCESS ->
  nth_error (new_lines s (snd (_console_message s))) 0 =
    Some [FStr (NL ++ (if py_ge (PFloat rc) 99
                       then "> SUCCESS: Congratulations, route finished! "
                       else "> FAILED: The actor timed out "))] /\
  (py_ge (PFloat rc) 99 = true ->
   nth_error (new_lines s (snd (_console_message s))) 3 =
     Some [FStr "> - Route Completed ["; FStr tick; FStr "]:      ";
           FNum (PInt 100); FStr "%"]).
Proof.
  destruct s as [m status b lg out]. cbn [tree_status blackv].
  intros -> ->.
  destruct (py_ge (PFloat rc) 99) eqn:Hge.
  - run_report. rewrite Hge. cbv beta iota.
    change (py_eq (PInt 100) 100) with true. cbv beta iota.
    read_report. split; [reflexivity|]. intros _. reflexivity.
  - assert (Heq : py_eq (PFloat rc) 100 = false).
    { cbn [py_eq]. cbn [py_ge] in Hge.
      destruct (PrimFloat.eqb rc (float_of_Z 100)) eqn:E; [|reflexivity].
      apply eqb_100_leb_99 in E. congruence. }
    run_report. rewrite Hge. cbv beta iota. rewrite Heq. cbv beta iota.
    read_report. split; [reflexivity|]. discriminate.
Qed.

(** X3: in a report the lines of the three counters (collisions, red
    lights, stop signs) carry the passing symbol exactly when the count is
    at most 0, and the two symbols differ. *)
Theorem counter_lines s rc c o st rl ir :
  blackv s = mkBlackboard (Some rc) (Some c) (Some o) (Some st) (Some rl) (Some ir) ->
  tree_status s = SUCCESS \/ tree_status s = FAILURE ->
  nth_error (new_lines s (snd (_console_message s))) 5 =
    Some [FStr "> - Collisions ["; FStr (if c <=? 0 then tick else cross);
          FStr "]:           "; FNum (PInt c); FStr " times"] /\
  nth_error (new_lines s (snd (_console_message s))) 6 =
    Some [FStr "> - Red lights run ["; FStr (if rl <=? 0 then tick else cross);
          FStr "]:       "; FNum (PInt rl); FStr " times"] /\
  nth_error (new_lines s (snd (_console_message s))) 7 =
    Some [FStr "> - Stop signs run ["; FStr (if st <=? 0 then tick else cross);
          FStr "]:       "; FNum (PInt st); FStr (" times" ++ NL)] /\
  tick <> cross.
Proof.
  destruct s as [m status b lg out]. cbn [tree_status blackv].
  intros -> Hst.
  rewrite <- !get_symbol_count.
  destruct Hst as [-> | ->].
  - run_report.
    destruct (py_eq _ 100); read_report;
      repeat split; try reflexivity; discriminate.
  - destruct ir; run_report; read_report;
      repeat split; try reflexivity; discriminate.
Qed.

End ReporterMore.

(** ** Further properties of the orchestrator *)

Section OrchestratorMore.

Context {Actor Agent Control : Type}.

Implicit Types (s : @State Actor Agent Control) (env : @Env Actor Control).

Ltac open_run s :=
  let m := fresh "m" in
  destruct s as [m ?st ?b ?lg ?out];
  destruct m as [?nm ?egos ?dbg ?chal ?ag ?run ?last ?ds ?dg ?t0 ?t1].

Ltac run_cycle :=
  cbv [_tick_scenario bind gets modify when ret raise call record agent_call
       tree_tick_once watchdog_get_status ego_vehicle0 with_self set_running
       set_timestamp_last_run print new_events same_setup
       self tree_status blackv log stdout scenario_tree_name ego_vehicles
       _debug_mode _challenge_mode _agent _running _timestamp_last_run
       scenario_duration_system scenario_duration_game start_system_time
       end_system_time elapsed_seconds fst snd negb].

Ltac split_cycle :=
  match goal with
  | |- context [Status_eqb ?x ?y] => destruct (Status_eqb x y) eqn:?
  | |- context [if ?b then _ else _] => destruct b eqn:?
  | |- context [match ?x with Some _ => _ | None => _ end] => destruct x eqn:?
  | |- context [match ?x with [] => _ | _ :: _ => _ end] => destruct x eqn:?
  end.

Ltac read_cycle :=
  rewrite <- ?app_assoc;
  rewrite ?skipn_length_app, ?skipn_length_self, ?app_nil_r;
  repeat match goal with
         | H : context [(_ ++ _) ++ _] |- _ => rewrite <- !app_assoc in H
         end.

(** What a call of [_tick_scenario] leaves alone, wherever it stops. *)
Lemma tick_frame env ts s :
  let s' := snd (_tick_scenario env ts s) in
  let evs := new_events s s' in
  same_setup (self s) (self s') /\
  forallb is_tick_event evs = true /\
  (_agent (self s) = None ->
     count is_agent_call evs = 0%nat /\
     count is_apply_control evs = 0%nat /\
     count is_status_read evs = 0%nat /\
     count is_world_tick evs = 0%nat).
Proof.
  open_run s. destruct ts as [t]. cbv zeta. run_cycle.
  repeat split_cycle;
    read_cycle; cbn;
    repeat split; intros; auto; try congruence.
Qed.

(** X4: a call of the tick operation never changes the set-up of the
    manager (tree name, ego vehicles, debug and challenge modes, agent,
    durations and system times), and never switches the running flag on:
    the flag can only go from true to false. *)
Theorem tick_keeps_setup env ts s :
  let s' := snd (_tick_scenario env ts s) in
  same_setup (self s) (self s') /\
  (_running (self s') = true -> _running (self s) = true).
Proof.
  cbv zeta. split.
  - apply (tick_frame env ts s).
  - apply (tick_summary env ts s).
Qed.

Lemma ltb_irrefl (x : float) : PrimFloat.ltb x x = false.
Proof.
  destruct (PrimFloat.ltb x x) eqn:E; [|reflexivity].
  pose proof (ltb_ltb_false x x E). congruence.
Qed.

(** X5: a timestamp is used up by the call that sees it, even when that
    call raises in the middle of its cycle: a second call with the same
    timestamp makes none of the cycle's calls. *)
Theorem timestamp_consumed_once env env' ts s :
  let s1 := snd (_tick_scenario env ts s) in
  let s2 := snd (_tick_scenario env' ts s1) in
  filter is_cycle_event (new_events s1 s2) = [] /\
  _timestamp_last_run (self s2) = _timestamp_last_run (self s1) /\
  tree_status s2 = tree_status s1.
Proof.
  cbv zeta.
  destruct (tick_summary env ts s) as (_ & _ & _ & Hf & Ht & _).
  set (s1 := snd (_tick_scenario env ts s)) in *.
  destruct (tick_summary env' ts s1) as (_ & _ & _ & Hf1 & _).
  assert (Hlt : PrimFloat.ltb (_timestamp_last_run (self s1))
                  (elapsed_seconds ts) = false).
  { destruct (PrimFloat.ltb (_timestamp_last_run (self s))
                (elapsed_seconds ts)) eqn:E.
    - destruct (Ht eq_refl) as (_ & -> & _). apply ltb_irrefl.
    - destruct (Hf eq_refl) as (_ & -> & _). exact E. }
  destruct (Hf1 Hlt) as (A & B & _ & C & _). auto.
Qed.

(** X6: with no ego vehicle, a cycle that needs one (an agent is attached
    or challenge mode is on) raises [IndexError] after the tree was ticked:
    no control is applied and the world is not ticked, while the timestamp
    is already stored. *)
Theorem tick_without_ego_vehicle env ts s :
  (forall l, env_raises env l = false) ->
  ego_vehicles (self s) = [] ->
  PrimFloat.ltb (_timestamp_last_run (self s)) (elapsed_seconds ts) = true ->
  _agent (self s) <> None \/ _challenge_mode (self s) = true ->
  let r := _tick_scenario env ts s in
  let evs := new_events s (snd r) in
  fst r = Raise IndexError /\
  count is_tree_tick evs = 1%nat /\
  count is_apply_control evs = 0%nat /\
  count is_world_tick evs = 0%nat /\
  _timestamp_last_run (self (snd r)) = elapsed_seconds ts.
Proof.
  open_run s. destruct ts as [t].
  intros Hno Hego Hlt Hneed r evs.
  cbn [self ego_vehicles _timestamp_last_run elapsed_seconds _agent
       _challenge_mode] in Hego, Hlt, Hneed.
  subst r evs. run_cycle. rewrite Hlt, Hego. cbv beta iota.
  repeat (first [ rewrite Hno | split_cycle ]; cbv beta iota).
  all: read_cycle; cbn;
    repeat split; try reflexivity;
    destruct Hneed as [Hneed | Hneed]; congruence.
Qed.

(** *** The loop *)

Lemma run_loop_flag env polls : forall s b,
  fst (run_loop env polls s) = Ok b ->
  _running (self (snd (run_loop env polls s))) = negb b.
Proof.
  induction polls as [|p polls IH]; intros s b.
  - destruct (_running (self s)) eqn:Hrun.
    + rewrite (run_loop_nil env s Hrun). cbn [fst snd].
      intros H. injection H as <-. exact Hrun.
    + rewrite (run_loop_not_running env [] s Hrun). cbn [fst snd].
      intros H. injection H as <-. exact Hrun.
  - destruct (_running (self s)) eqn:Hrun.
    + rewrite (run_loop_cons env p polls s Hrun).
      destruct p as [ts|].
      * destruct (_tick_scenario env ts s) as [[u|e] s1].
        -- apply IH.
        -- cbn [fst]. discriminate.
      * apply IH.
    + rewrite (run_loop_not_running env (p :: polls) s Hrun). cbn [fst snd].
      intros H. injection H as <-. exact Hrun.
Qed.



(** X8: polls that deliver no timestamp (no world, or no snapshot yet) are
    passed over without any effect: the loop does what it does on the
    timestamps alone. *)
Theorem run_loop_skips_empty_polls env polls : forall s,
  run_loop env polls s = run_loop env (map Some (observed polls)) s.
Proof.
  induction polls as [|p polls IH]; intros s; [reflexivity|].
  destruct (_running (self s)) eqn:Hrun.
  - destruct p as [ts|].
    + change (observed (Some ts :: polls)) with (ts :: observed polls).
      cbn [map]. rewrite !(run_loop_cons env _ _ s Hrun).
      destruct (_tick_scenario env ts s) as [[u|e] s1]; [apply IH|reflexivity].
    + change (observed (None :: polls)) with (observed polls).
      rewrite (run_loop_cons env None polls s Hrun). apply IH.
  - rewrite !(run_loop_not_running env _ s Hrun). reflexivity.
Qed.

End OrchestratorMore.

(** ** A whole run *)

Section RunScenario.

Context {Actor Agent Control : Type}.

Implicit Types (s : @State Actor Agent Control) (env : @Env Actor Control).

Lemma same_setup_refl (m : @ScenarioManager Actor Agent) : same_setup m m.
Proof. unfold same_setup. repeat split. Qed.

Lemma same_setup_trans (m1 m2 m3 : @ScenarioManager Actor Agent) :
  same_setup m1 m2 -> same_setup m2 m3 -> same_setup m1 m3.
Proof.
  unfold same_setup. intros H1 H2.
  repeat match goal with H : _ /\ _ |- _ => destruct H end.
  repeat split; congruence.
Qed.

(** The loop makes only calls of the tick, and leaves the set-up alone. *)
Lemma run_loop_frame env polls : forall s,
  let s' := snd (run_loop env polls s) in
  log s' = log s ++ new_events s s' /\
  forallb is_tick_event (new_events s s') = true /\
  same_setup (self s) (self s').
Proof.
  induction polls as [|p polls IH]; intros s; cbv zeta.
  - destruct (_running (self s)) eqn:Hrun;
      [rewrite (run_loop_nil env s Hrun)
      |rewrite (run_loop_not_running env [] s Hrun)];
      cbn [snd]; rewrite new_events_refl, app_nil_r;
      (split; [reflexivity|]; split; [reflexivity|apply same_setup_refl]).
  - destruct (_running (self s)) eqn:Hrun.
    2:{ rewrite (run_loop_not_running env (p :: polls) s Hrun).
        cbn [snd]. rewrite new_events_refl, app_nil_r.
        split; [reflexivity|]. split; [reflexivity|apply same_setup_refl]. }
    rewrite (run_loop_cons env p polls s Hrun).
    destruct p as [ts|]; [|apply IH].
    destruct (tick_summary env ts s) as (L1 & _).
    destruct (tick_frame env ts s) as (F1 & T1 & _).
    destruct (_tick_scenario env ts s) as [[u|e] s1]; cbn [fst snd] in *.
    + destruct (IH s1) as (L2 & T2 & F2).
      set (s2 := snd (run_loop env polls s1)) in *.
      assert (E : new_events s s2 = new_events s s1 ++ new_events s1 s2).
      { apply new_events_of_log. rewrite L2, L1 at 1.
        rewrite <- app_assoc. reflexivity. }
      rewrite E. split; [rewrite L2, L1 at 1; rewrite <- app_assoc; reflexivity|].
      split; [rewrite forallb_app, T1, T2; reflexivity|].
      exact (same_setup_trans _ _ _ F1 F2).
    + split; [exact L1|]. split; [exact T1|exact F1].
Qed.

Ltac open_run s :=
  let m := fresh "m" in
  destruct s as [m ?st ?b ?lg ?out];
  destruct m as [?nm ?egos ?dbg ?chal ?ag ?run ?last ?ds ?dg ?t0 ?t1].

Ltac run_scn H :=
  cbv [run_scenario bind gets modify ret raise call record read_clock
       with_self set_running set_start_system_time set_end print
       self tree_status blackv log stdout scenario_tree_name ego_vehicles
       _debug_mode _challenge_mode _agent _running _timestamp_last_run
       scenario_duration_system scenario_duration_game start_system_time
       end_system_time fst snd] in H.

Ltac step_scn H :=
  match type of H with
  | context [if env_raises ?e ?l then _ else _] =>
      destruct (env_raises e l) eqn:?
  end; cbv beta iota zeta in H.

(** X9: a run that comes back with the loop left has started the watchdog
    before the first call of a tick and stopped it after the last one, has
    the running flag false, and has stored the start and end system times
    and the two durations as differences of the clock readings. *)
Theorem run_scenario_completed env polls s :
  fst (run_scenario env polls s) = Ok true ->
  let s' := snd (run_scenario env polls s) in
  exists loop_evs,
    new_events s s' =
      [ETimeTime; EGameTimeGetTime; EWatchdogStart] ++ loop_evs ++
      [EWatchdogStop; ETimeTime; EGameTimeGetTime] /\
    forallb is_tick_event loop_evs = true /\
    _running (self s') = false /\
    let t_start := env_time env (log s ++ [ETimeTime]) in
    let g_start := env_time env (log s ++ [ETimeTime; EGameTimeGetTime]) in
    let after_loop :=
      log s ++ [ETimeTime; EGameTimeGetTime; EWatchdogStart] ++ loop_evs in
    let t_end := env_time env (after_loop ++ [EWatchdogStop; ETimeTime]) in
    let g_end :=
      env_time env (after_loop ++ [EWatchdogStop; ETimeTime; EGameTimeGetTime]) in
    start_system_time (self s') = Some t_start /\
    end_system_time (self s') = Some t_end /\
    scenario_duration_system (self s') = PrimFloat.sub t_end t_start /\
    scenario_duration_game (self s') = PrimFloat.sub g_end g_start.
Proof.
  intros H s'. subst s'.
  remember (run_scenario env polls s) as r eqn:Hr. revert H.
  open_run s. run_scn Hr.
  do 3 (step_scn Hr; [subst r; discriminate|]).
  match type of Hr with
  | context [run_loop env polls ?S] =>
      pose proof (run_loop_frame env polls S) as F;
      pose proof (run_loop_flag env polls S) as X;
      destruct (run_loop env polls S) as [[left|e] s2]
  end; cbv beta iota zeta in Hr; [|subst r; discriminate].
  destruct left; [|subst r; discriminate].
  cbn [fst snd] in F, X. specialize (X true eq_refl).
  destruct F as (FL & FT & FS).
  set (loop_evs := new_events _ s2) in FL, FT.
  clearbody loop_evs.
  open_run s2. cbn [self log _running negb] in FL, X.
  unfold same_setup in FS.
  cbn [scenario_tree_name ego_vehicles _debug_mode _challenge_mode _agent
       scenario_duration_system scenario_duration_game start_system_time
       end_system_time] in FS.
  destruct FS as (_ & _ & _ & _ & _ & _ & _ & FS & _).
  cbv beta iota zeta in Hr.
  do 3 (step_scn Hr; [subst r; discriminate|]).
  match type of Hr with
  | context [_console_message ?S] =>
      destruct (console_message_frame S) as (C1 & _ & _ & C2 & _);
      destruct (_console_message S) as [[u|e] s4]
  end; cbv beta iota zeta in Hr; [|subst r; discriminate].
  subst r. intros _. cbn [fst snd self log] in *.
  exists loop_evs. rewrite C1.
  cbn [_running start_system_time end_system_time scenario_duration_system
       scenario_duration_game].
  subst. rewrite <- !app_assoc in *. cbn [app] in *.
  split.
  { apply new_events_of_log. cbn [log]. rewrite C2. reflexivity. }
  repeat split; try assumption; reflexivity.
Qed.

Lemma tick_events_no_stop (evs : list (@event Actor Control)) :
  forallb is_tick_event evs = true -> count is_watchdog_stop evs = 0%nat.
Proof.
  unfold count. induction evs as [|e evs IH]; [reflexivity|].
  cbn [forallb filter]. intros H. apply andb_prop in H. destruct H as [He H].
  destruct e; try discriminate He; cbn [is_watchdog_stop]; auto.
Qed.

Lemma last_call (evs pre : list (@event Actor Control)) e0 :
  evs = pre ++ [e0] -> List.last evs e0 = e0.
Proof. intros ->. apply last_last. Qed.

(** X10: the watchdog is stopped only once the loop has been left.  When
    the last call a run has made is a call of a tick (an exception came
    out of a tick, or the polls ran out), the watchdog has not been stopped
    and no end time has been stored. *)
Theorem run_scenario_leaves_watchdog_running env polls s pre e0 :
  new_events s (snd (run_scenario env polls s)) = pre ++ [e0] ->
  is_tick_event e0 = true ->
  count is_watchdog_stop (new_events s (snd (run_scenario env polls s))) = 0%nat /\
  end_system_time (self (snd (run_scenario env polls s))) =
  end_system_time (self s) /\
  fst (run_scenario env polls s) <> Ok true.
Proof.
  intros Hev Htick. apply last_call in Hev. revert Hev.
  remember (run_scenario env polls s) as r eqn:Hr.
  open_run s. run_scn Hr.
  do 3 (step_scn Hr;
        [subst r; unfold new_events; cbn [fst snd self log];
         rewrite <- ?app_assoc; rewrite skipn_length_app; cbn [app List.last];
         intros <-; discriminate Htick|]).
  match type of Hr with
  | context [run_loop env polls ?S] =>
      pose proof (run_loop_frame env polls S) as F;
      pose proof (run_loop_flag env polls S) as X;
      destruct (run_loop env polls S) as [[left|e] s2]
  end; cbv beta iota zeta in Hr.
  2:{ subst r. cbn [fst snd] in *. destruct F as (FL & FT & FS).
      set (loop_evs := new_events _ s2) in FL, FT. clearbody loop_evs.
      intros _. cbn [log] in FL. rewrite <- !app_assoc in FL. cbn [app] in FL.
      match goal with
      | |- context [new_events ?a ?b] => rewrite (new_events_of_log a b _ FL)
      end.
      split; [|split; [|discriminate]].
      - unfold count. cbn [filter is_watchdog_stop].
        exact (tick_events_no_stop _ FT).
      - apply FS. }
  cbn [fst snd] in F, X. destruct F as (FL & FT & FS).
  set (loop_evs := new_events _ s2) in FL, FT. clearbody loop_evs.
  destruct left.
  2:{ subst r. cbn [fst snd] in *.
      intros _. cbn [log] in FL. rewrite <- !app_assoc in FL. cbn [app] in FL.
      match goal with
      | |- context [new_events ?a ?b] => rewrite (new_events_of_log a b _ FL)
      end.
      split; [|split; [|discriminate]].
      - unfold count. cbn [filter is_watchdog_stop].
        exact (tick_events_no_stop _ FT).
      - apply FS. }
  clear X FS.
  open_run s2. cbn [self log] in FL.
  cbv beta iota zeta in Hr.
  do 3 (step_scn Hr;
        [subst r lg0; unfold new_events; cbn [fst snd self log];
         rewrite <- ?app_assoc; rewrite skipn_length_app;
         rewrite ?app_assoc; rewrite last_last;
         intros <-; discriminate Htick|]).
  match type of Hr with
  | context [_console_message ?S] =>
      destruct (console_message_frame S) as (_ & _ & _ & C2 & _);
      destruct (_console_message S) as [[u|e] s4]
  end; cbv beta iota zeta in Hr;
    subst r lg0; unfold new_events; cbn [fst snd self log] in *;
    rewrite C2; rewrite <- ?app_assoc; rewrite skipn_length_app;
    rewrite ?app_assoc; rewrite last_last;
    intros <-; discriminate Htick.
Qed.

End RunScenario.

(** ** Loading and stopping *)

Section LifecycleProperties.

Context {Actor Agent Control RawAgent Track : Type}.

Variable AgentWrapper : RawAgent -> bool -> Agent.
Variable raises : list (@Lifecycle.setup_call Actor Agent Track) -> bool.

Implicit Types (ss : @Lifecycle.Session Actor Agent Control Track)
               (env : @Env Actor Control).

Ltac open_session ss :=
  let s := fresh "s" in
  let m := fresh "m" in
  destruct ss as [s ?sc ?scc ?oa ?tr ?cl];
  destruct s as [m ?st ?b ?lg ?out];
  destruct m as [?nm ?egos ?dbg ?chal ?ag ?run ?last ?ds ?dg ?t0 ?t1].

Ltac run_setup :=
  cbv [Lifecycle.load_scenario Lifecycle.stop_scenario Lifecycle._reset
       Lifecycle.lbind Lifecycle.lret Lifecycle.lraise Lifecycle.lgets
       Lifecycle.lmodify Lifecycle.setup Lifecycle.assign
       Lifecycle.set_agent Lifecycle.set_ego_vehicles Lifecycle.reset_fields
       Lifecycle.set_scenario_tree Lifecycle.new_calls
       Lifecycle.state Lifecycle.scenario Lifecycle.scenario_class
       Lifecycle.other_actors Lifecycle._track Lifecycle.calls
       Lifecycle.rs_scenario Lifecycle.rs_ego_vehicles
       Lifecycle.rs_other_actors Lifecycle.scenario_tree Lifecycle.name
       Lifecycle.status with_self
       self tree_status blackv log stdout scenario_tree_name ego_vehicles
       _debug_mode _challenge_mode _agent _running _timestamp_last_run
       scenario_duration_system scenario_duration_game start_system_time
       end_system_time fst snd].

Ltac split_setup :=
  match goal with
  | |- context [if ?b then _ else _] => destruct b eqn:?
  | |- context [match ?x with Some _ => _ | None => _ end] => destruct x eqn:?
  | |- context [match ?x with [] => _ | _ :: _ => _ end] => destruct x eqn:?
  end.

Ltac read_calls :=
  rewrite <- ?app_assoc;
  rewrite ?skipn_length_app, ?skipn_length_self, ?app_nil_r;
  repeat match goal with
         | H : context [(_ ++ _) ++ _] |- _ => rewrite <- !app_assoc in H
         end.

(** X11: a load with an agent that returns normally has found an ego
    vehicle: the manager then holds the scenario's ego vehicles, the
    wrapped agent, a cleared running flag and timestamp, and has made
    exactly the four calls of the source, the sensors being set up on the
    first ego vehicle. *)
Theorem load_scenario_with_agent arg a ss :
  fst (Lifecycle.load_scenario AgentWrapper raises arg (Some a) ss) = Ok tt ->
  let ss' := snd (Lifecycle.load_scenario AgentWrapper raises arg (Some a) ss) in
  let m := self (Lifecycle.state ss) in
  let w := AgentWrapper a (_challenge_mode m) in
  exists v rest,
    Lifecycle.rs_ego_vehicles arg = v :: rest /\
    ego_vehicles (self (Lifecycle.state ss')) = v :: rest /\
    _agent (self (Lifecycle.state ss')) = Some w /\
    _running (self (Lifecycle.state ss')) = false /\
    _timestamp_last_run (self (Lifecycle.state ss')) = 0%float /\
    Lifecycle.new_calls ss ss' =
      [Lifecycle.GameTimeRestart;
       Lifecycle.RegisterActors (v :: rest);
       Lifecycle.RegisterActors (Lifecycle.rs_other_actors arg);
       Lifecycle.SetupSensors w v (_debug_mode m) (Lifecycle._track ss)].
Proof.
  open_session ss. destruct arg as [[[tn ts]] aegos aothers].
  cbv zeta. run_setup.
  repeat split_setup; try discriminate; intros _;
    do 2 eexists; read_calls; repeat split; reflexivity.
Qed.

(** X12: a load with an agent of a scenario that has no ego vehicle raises
    [IndexError] (when no collaborator raises first): the actors have been
    registered, the sensors are never set up, and the manager is left with
    the new scenario and the agent already stored. *)
Theorem load_scenario_without_ego_vehicle arg a ss :
  (forall l, raises l = false) ->
  Lifecycle.rs_ego_vehicles arg = [] ->
  let r := Lifecycle.load_scenario AgentWrapper raises arg (Some a) ss in
  fst r = Raise IndexError /\
  Lifecycle.new_calls ss (snd r) =
    [Lifecycle.GameTimeRestart; Lifecycle.RegisterActors [];
     Lifecycle.RegisterActors (Lifecycle.rs_other_actors arg)] /\
  Lifecycle.scenario_class (snd r) = Some arg /\
  _agent (self (Lifecycle.state (snd r))) =
    Some (AgentWrapper a (_challenge_mode (self (Lifecycle.state ss)))) /\
  ego_vehicles (self (Lifecycle.state (snd r))) = [].
Proof.
  open_session ss. destruct arg as [[[tn ts]] aegos aothers].
  cbn [Lifecycle.rs_ego_vehicles]. intros Hno ->.
  cbv zeta. run_setup. rewrite !Hno. cbv beta iota.
  read_calls. repeat split; reflexivity.
Qed.

(** X13: loading rewinds the timestamp filter, whatever was processed
    before and whether or not the load itself succeeds: the stored
    timestamp is 0.0 and the flag false, so that the next tick runs a cycle
    exactly when the elapsed seconds are above zero; a timestamp at 0.0
    makes no cycle. *)
Theorem load_scenario_rewinds_timestamps arg agent ss env ts :
  let s1 := Lifecycle.state
              (snd (Lifecycle.load_scenario AgentWrapper raises arg agent ss)) in
  let evs := new_events s1 (snd (_tick_scenario env ts s1)) in
  _timestamp_last_run (self s1) = 0%float /\
  _running (self s1) = false /\
  (PrimFloat.ltb 0 (elapsed_seconds ts) = false ->
     filter is_cycle_event evs = []) /\
  (PrimFloat.ltb 0 (elapsed_seconds ts) = true ->
     hd_error evs = Some EWatchdogUpdate).
Proof.
  cbv zeta.
  set (s1 := Lifecycle.state (snd (Lifecycle.load_scenario _ _ _ _ _))).
  assert (H : _timestamp_last_run (self s1) = 0%float /\
              _running (self s1) = false).
  { subst s1. open_session ss. destruct arg as [[[tn tst]] aegos aothers].
    destruct agent; run_setup; repeat split_setup; split; reflexivity. }
  destruct H as [H0 Hr].
  destruct (tick_summary env ts s1) as (_ & _ & _ & Hf & Ht & _).
  rewrite H0 in Hf, Ht.
  repeat split; auto.
  - intros H. apply (Hf H).
  - intros H. apply (Ht H).
Qed.

(** X14: after a load without an agent that returns normally no agent is
    attached, the sensors were not set up, and a tick neither calls an
    agent, nor applies a control, nor reads the watchdog status, nor ticks
    the world. *)
Theorem load_scenario_without_agent arg ss env ts :
  fst (Lifecycle.load_scenario AgentWrapper raises arg None ss) = Ok tt ->
  let ss' := snd (Lifecycle.load_scenario AgentWrapper raises arg None ss) in
  let s1 := Lifecycle.state ss' in
  let evs := new_events s1 (snd (_tick_scenario env ts s1)) in
  _agent (self s1) = None /\
  Lifecycle.new_calls ss ss' =
    [Lifecycle.GameTimeRestart;
     Lifecycle.RegisterActors (Lifecycle.rs_ego_vehicles arg);
     Lifecycle.RegisterActors (Lifecycle.rs_other_actors arg)] /\
  count is_agent_call evs = 0%nat /\
  count is_apply_control evs = 0%nat /\
  count is_status_read evs = 0%nat /\
  count is_world_tick evs = 0%nat.
Proof.
  intros Hok. cbv zeta.
  set (ss' := snd (Lifecycle.load_scenario _ _ _ _ _)).
  assert (H : _agent (self (Lifecycle.state ss')) = None /\
              Lifecycle.new_calls ss ss' =
                [Lifecycle.GameTimeRestart;
                 Lifecycle.RegisterActors (Lifecycle.rs_ego_vehicles arg);
                 Lifecycle.RegisterActors (Lifecycle.rs_other_actors arg)]).
  { subst ss'. revert Hok.
    open_session ss. destruct arg as [[[tn tst]] aegos aothers].
    run_setup; repeat split_setup; try discriminate; intros _;
      read_calls; split; reflexivity. }
  destruct H as [Ha Hc].
  destruct (tick_frame env ts (Lifecycle.state ss')) as (_ & _ & Hn).
  destruct (Hn Ha) as (A & B & C & D).
  repeat split; assumption.
Qed.

(** X15: when no collaborator raises, stopping terminates the scenario if
    one is loaded, cleans up the agent if one is attached, then cleans up
    the data provider, in that order; afterwards no agent is attached and
    the loaded scenario is still recorded.  Stopping a second time
    therefore cleans up no agent, but terminates the scenario once more and
    cleans up the data provider again. *)
Theorem stop_scenario_calls ss :
  (forall l, raises l = false) ->
  let r := Lifecycle.stop_scenario raises ss in
  let r2 := Lifecycle.stop_scenario raises (snd r) in
  (fst r = Ok tt /\
   Lifecycle.new_calls ss (snd r) =
     match Lifecycle.scenario ss with
     | Some x => [Lifecycle.ScenarioTerminate x]
     | None => []
     end ++
     match _agent (self (Lifecycle.state ss)) with
     | Some w => [Lifecycle.AgentCleanup w]
     | None => []
     end ++ [Lifecycle.ProviderCleanup] /\
   _agent (self (Lifecycle.state (snd r))) = None /\
   Lifecycle.scenario (snd r) = Lifecycle.scenario ss /\
   ego_vehicles (self (Lifecycle.state (snd r))) =
   ego_vehicles (self (Lifecycle.state ss))) /\
  (fst r2 = Ok tt /\
   Lifecycle.new_calls (snd r) (snd r2) =
     match Lifecycle.scenario ss with
     | Some x => [Lifecycle.ScenarioTerminate x]
     | None => []
     end ++ [Lifecycle.ProviderCleanup]).
Proof.
  intros Hno.
  assert (H : forall ss0,
    let r := Lifecycle.stop_scenario raises ss0 in
    fst r = Ok tt /\
    Lifecycle.new_calls ss0 (snd r) =
      match Lifecycle.scenario ss0 with
      | Some x => [Lifecycle.ScenarioTerminate x]
      | None => []
      end ++
      match _agent (self (Lifecycle.state ss0)) with
      | Some w => [Lifecycle.AgentCleanup w]
      | None => []
      end ++ [Lifecycle.ProviderCleanup] /\
    _agent (self (Lifecycle.state (snd r))) = None /\
    Lifecycle.scenario (snd r) = Lifecycle.scenario ss0 /\
    ego_vehicles (self (Lifecycle.state (snd r))) =
    ego_vehicles (self (Lifecycle.state ss0))).
  { intros ss0. open_session ss0. cbv zeta. run_setup.
    destruct sc; destruct ag; rewrite ?Hno; cbv beta iota; rewrite ?Hno;
      cbv beta iota; rewrite ?Hno; cbv beta iota;
      read_calls; repeat split; reflexivity. }
  cbv zeta. split; [apply H|].
  destruct (H ss) as (_ & _ & Ha & Hs & _).
  destruct (H (snd (Lifecycle.stop_scenario raises ss))) as (Hok & Hc & _).
  rewrite Ha, Hs in Hc. split; assumption.
Qed.

(** X16: when the agent's cleanup raises, the exception leaves
    [stop_scenario] with the agent still attached and the data provider
    not cleaned up. *)
Theorem stop_scenario_cleanup_raises ss w :
  _agent (self (Lifecycle.state ss)) = Some w ->
  (forall x, Lifecycle.scenario ss = Some x ->
     raises (Lifecycle.calls ss ++ [Lifecycle.ScenarioTerminate x]) = false) ->
  raises (Lifecycle.calls ss ++
          match Lifecycle.scenario ss with
          | Some x => [Lifecycle.ScenarioTerminate x]
          | None => []
          end ++ [Lifecycle.AgentCleanup w]) = true ->
  let r := Lifecycle.stop_scenario raises ss in
  fst r = Raise CollaboratorError /\
  _agent (self (Lifecycle.state (snd r))) = Some w /\
  List.last (Lifecycle.new_calls ss (snd r)) Lifecycle.ProviderCleanup =
    Lifecycle.AgentCleanup w.
Proof.
  open_session ss.
  cbn [Lifecycle.state Lifecycle.scenario Lifecycle.calls self _agent].
  intros -> Hterm Hclean. cbv zeta. run_setup.
  destruct sc as [x|].
  - rewrite (Hterm x eq_refl). cbv beta iota.
    rewrite <- !app_assoc. cbn [app] in Hclean |- *.
    rewrite Hclean. cbv beta iota.
    rewrite skipn_length_app. repeat split; reflexivity.
  - cbn [app] in Hclean. rewrite Hclean. cbv beta iota.
    rewrite skipn_length_app. repeat split; reflexivity.
Qed.

(** X17: after a stop that returns normally, a tick neither calls an
    agent, nor applies a control, nor reads the watchdog status, nor ticks
    the world. *)
Theorem tick_after_stop ss env ts :
  fst (Lifecycle.stop_scenario raises ss) = Ok tt ->
  let s1 := Lifecycle.state (snd (Lifecycle.stop_scenario raises ss)) in
  let evs := new_events s1 (snd (_tick_scenario env ts s1)) in
  count is_agent_call evs = 0%nat /\
  count is_apply_control evs = 0%nat /\
  count is_status_read evs = 0%nat /\
  count is_world_tick evs = 0%nat.
Proof.
  intros Hok. cbv zeta.
  set (ss' := snd (Lifecycle.stop_scenario raises ss)).
  assert (Ha : _agent (self (Lifecycle.state ss')) = None).
  { subst ss'. revert Hok. open_session ss.
    run_setup; repeat split_setup; try discriminate; intros _; reflexivity. }
  destruct (tick_frame env ts (Lifecycle.state ss')) as (_ & _ & Hn).
  exact (Hn Ha).
Qed.

End LifecycleProperties.

(** ** More concrete instances *)

Lemma invalid_status_prints_nothing_witness :
  stdout (snd (_console_message
                 (demo_state None false false INVALID (demo_blackboard 0 true))))
  = [].
Proof.
  exact (proj1 (invalid_status_prints_nothing
                  (demo_state None false false INVALID (demo_blackboard 0 true))
                  eq_refl)).
Defined.

Lemma success_verdict_witness :
  nth_error
    (new_lines
       (demo_state None false false SUCCESS (demo_blackboard 99.5 true))
       (snd (_console_message
               (demo_state None false false SUCCESS (demo_blackboard 99.5 true)))))
    0 = Some [FStr (NL ++ "> SUCCESS: Congratulations, route finished! ")].
Proof.
  exact (proj1 (success_verdict
                  (demo_state None false false SUCCESS (demo_blackboard 99.5 true))
                  99.5%float 0 0%float 0 0 true eq_refl eq_refl)).
Defined.

Lemma counter_lines_witness :
  nth_error
    (new_lines
       (demo_state None false false FAILURE
          (mkBlackboard (Some 40%float) (Some 2) (Some 0%float) (Some 0)
             (Some 1) (Some true)))
       (snd (_console_message
               (demo_state None false false FAILURE
                  (mkBlackboard (Some 40%float) (Some 2) (Some 0%float) (Some 0)
                     (Some 1) (Some true))))))
    5 = Some [FStr "> - Collisions ["; FStr cross; FStr "]:           ";
              FNum (PInt 2); FStr " times"].
Proof.
  exact (proj1 (counter_lines
                  (demo_state None false false FAILURE
                     (mkBlackboard (Some 40%float) (Some 2) (Some 0%float)
                        (Some 0) (Some 1) (Some true)))
                  40%float 2 0%float 0 1 true eq_refl (or_intror eq_refl))).
Defined.

Lemma tick_without_ego_vehicle_witness :
  fst (_tick_scenario (demo_env true RUNNING) (mkTimestamp 1)
         (mkState (mkManager "RouteScenario_0" [] 0 false (Some tt) true
                     0%float 0%float 0%float None None)
            RUNNING (demo_blackboard 0 true) [] []))
  = Raise IndexError.
Proof.
  refine (proj1 (tick_without_ego_vehicle (demo_env true RUNNING)
                   (mkTimestamp 1)
                   (mkState (mkManager "RouteScenario_0" [] 0 false (Some tt)
                               true 0%float 0%float 0%float None None)
                      RUNNING (demo_blackboard 0 true) [] []) _ _ _ _)).
  - intros l. reflexivity.
  - reflexivity.
  - reflexivity.
  - left. discriminate.
Defined.


Lemma run_scenario_completed_witness :
  _running (self (snd (run_scenario (demo_env true SUCCESS)
                         [Some (mkTimestamp 1)]
                         (demo_state (Some tt) false false RUNNING
                            (demo_blackboard 0 true)))))
  = false.
Proof.
  destruct (run_scenario_completed (demo_env true SUCCESS)
              [Some (mkTimestamp 1)]
              (demo_state (Some tt) false false RUNNING (demo_blackboard 0 true)))
    as (loop_evs & _ & _ & H & _).
  - vm_compute. reflexivity.
  - exact H.
Defined.

Lemma run_scenario_leaves_watchdog_running_witness :
  count is_watchdog_stop
    (new_events
       (demo_state (Some tt) false false RUNNING (demo_blackboard 0 true))
       (snd (run_scenario demo_env_failing_agent [Some (mkTimestamp 1)]
               (demo_state (Some tt) false false RUNNING
                  (demo_blackboard 0 true)))))
  = 0%nat.
Proof.
  refine (proj1 (run_scenario_leaves_watchdog_running demo_env_failing_agent
                   [Some (mkTimestamp 1)]
                   (demo_state (Some tt) false false RUNNING
                      (demo_blackboard 0 true))
                   [ETimeTime; EGameTimeGetTime; EWatchdogStart;
                    EWatchdogUpdate; EGameTimeOnCarlaTick (mkTimestamp 1);
                    EProviderOnCarlaTick]
                   EAgentCall _ _)).
  - vm_compute. reflexivity.
  - reflexivity.
Defined.

Lemma load_scenario_with_agent_witness :
  ego_vehicles
    (self (Lifecycle.state
             (snd (Lifecycle.load_scenario demo_wrapper never_raises
                     (demo_route_scenario [1%nat]) (Some 5%nat)
                     (demo_session None)))))
  = [1%nat].
Proof.
  destruct (load_scenario_with_agent demo_wrapper never_raises
              (demo_route_scenario [1%nat]) 5%nat (demo_session None))
    as (v & rest & E & H & _).
  - reflexivity.
  - rewrite H. symmetry. exact E.
Defined.

Lemma load_scenario_without_ego_vehicle_witness :
  fst (Lifecycle.load_scenario demo_wrapper never_raises
         (demo_route_scenario []) (Some 5%nat) (demo_session None))
  = Raise IndexError.
Proof.
  refine (proj1 (load_scenario_without_ego_vehicle demo_wrapper never_raises
                   (demo_route_scenario []) 5%nat (demo_session None) _ _)).
  - intros l. reflexivity.
  - reflexivity.
Defined.

Lemma load_scenario_without_agent_witness :
  _agent
    (self (Lifecycle.state
             (snd (Lifecycle.load_scenario demo_wrapper never_raises
                     (demo_route_scenario [1%nat]) None
                     (demo_session (Some tt))))))
  = None.
Proof.
  refine (proj1 (load_scenario_without_agent demo_wrapper never_raises
                   (demo_route_scenario [1%nat]) (demo_session (Some tt))
                   (demo_env true RUNNING) (mkTimestamp 1) _)).
  reflexivity.
Defined.

Lemma stop_scenario_calls_witness :
  Lifecycle.new_calls (demo_loaded_session (Some tt))
    (snd (Lifecycle.stop_scenario never_raises (demo_loaded_session (Some tt))))
  = [Lifecycle.ScenarioTerminate
       (Lifecycle.mkScenario (Lifecycle.mkTree "RouteScenario_1" RUNNING));
     Lifecycle.AgentCleanup tt; Lifecycle.ProviderCleanup].
Proof.
  destruct (stop_scenario_calls never_raises (demo_loaded_session (Some tt)))
    as ((_ & H & _) & _).
  - intros l. reflexivity.
  - exact H.
Defined.

Lemma stop_scenario_cleanup_raises_witness :
  fst (Lifecycle.stop_scenario cleanup_raises (demo_loaded_session (Some tt)))
  = Raise CollaboratorError.
Proof.
  refine (proj1 (stop_scenario_cleanup_raises cleanup_raises
                   (demo_loaded_session (Some tt)) tt _ _ _)).
  - reflexivity.
  - intros x _. reflexivity.
  - reflexivity.
Defined.

Lemma tick_after_stop_witness :
  count is_world_tick
    (new_events
       (Lifecycle.state
          (snd (Lifecycle.stop_scenario never_raises
                  (demo_loaded_session (Some tt)))))
       (snd (_tick_scenario (demo_env true RUNNING) (mkTimestamp 1)
               (Lifecycle.state
                  (snd (Lifecycle.stop_scenario never_raises
                          (demo_loaded_session (Some tt))))))))
  = 0%nat.
Proof.
  destruct (tick_after_stop never_raises (demo_loaded_session (Some tt))
              (demo_env true RUNNING) (mkTimestamp 1)) as (_ & _ & _ & H).
  - reflexivity.
  - exact H.
Defined.
